(** * wishlist: credential and session subsystem

    A shallow embedding of the Go packages [model], [auth], [repository]
    and [module/account/action] of the wishlist backend, together with
    the properties of the identity validator, the authentication gate,
    the login handler and the profile update handler.

    Go values are modelled as follows.
    - [string] is a Go string: a sequence of bytes ([ascii] is one byte);
      [bytes s] is the conversion [[]byte(s)] and [len s] is Go's [len].
    - [int] values are in [Z]; [time.Time] is an instant in [Z].
    - [error] is [option string]: [None] is [nil], [Some msg] is an error
      whose [Error()] text is [msg].
    - a pointer request field ([*string]) is an [option string].
    - the gin context's key bag and the users table are [gmap]s. *)

From Stdlib Require Import ZArith NArith Ascii String List Bool Lia.
From Stdlib Require Import DecimalString.
From stdpp Require Import base option list gmap strings.
From stdpp Require Import sorting.

Set Warnings "-register-all".
Local Open Scope Z_scope.

(** ** Go strings *)

Abbreviation error := (option string) (only parsing).

(** A Go result pair [(v, err)]: either a value with a nil error, or an
    error (the value is then the zero value and is never read). *)
Inductive result (A : Type) : Type :=
| Ok (v : A)
| Err (msg : string).
Arguments Ok {A} v.
Arguments Err {A} msg.

(** [fmt.Sprintf("%d", n)] *)
Definition itoa (n : Z) : string := NilZero.string_of_int (Z.to_int n).

Definition bytes (s : string) : list ascii := list_ascii_of_string s.
Definition of_bytes (l : list ascii) : string := string_of_list_ascii l.
Definition len (s : string) : Z := Z.of_nat (String.length s).
Definition byte_val (c : ascii) : Z := Z.of_N (N_of_ascii c).

(** [lo <= c <= hi] on bytes, as in ['A' <= c && c <= 'Z']. *)
Definition byte_between (lo hi c : ascii) : bool :=
  (byte_val lo <=? byte_val c) && (byte_val c <=? byte_val hi).

(** The Go runtime's Unicode tables: [MapToLower s] is
    [strings.Map(unicode.ToLower, s)].  It is kept abstract. *)
Class Unicode : Type := { MapToLower : string -> string }.

Module strings.

(** The ASCII fast path of [strings.ToLower]: every byte in ['A','Z']
    is moved to lower case, every other byte is kept. *)
Definition lower_byte (c : ascii) : ascii :=
  if byte_between "A" "Z" c
  then ascii_of_N (N_of_ascii c + 32)
  else c.

Definition isASCII (s : string) : bool :=
  forallb (fun c => byte_val c <? 128) (bytes s).

(** [strings.ToLower]: a string of ASCII bytes is lowered byte by byte;
    any other string goes through the Unicode tables. *)
Definition ToLower {U : Unicode} (s : string) : string :=
  if isASCII s then of_bytes (map lower_byte (bytes s))
  else MapToLower s.

(** Position of the first occurrence of the byte [sep] in [l]. *)
Fixpoint IndexByte (l : list ascii) (sep : ascii) : option nat :=
  match l with
  | [] => None
  | c :: l' => if Ascii.eqb c sep then Some 0%nat
               else option_map S (IndexByte l' sep)
  end.

(** [strings.SplitN(s, sep, 2)] for a one-byte separator: the empty
    string and a string without the separator give one part, any other
    string is cut at the first separator. *)
Definition SplitN2 (s : string) (sep : ascii) : list string :=
  match IndexByte (bytes s) sep with
  | None => [s]
  | Some m => [of_bytes (take m (bytes s)); of_bytes (drop (S m) (bytes s))]
  end.

End strings.

(** ** Regular expressions (package regexp) *)

Module regexp.

(** One item of a bracket expression: a range [a-z] or a single byte. *)
Inductive class_item : Type :=
| CRange (lo hi : ascii)
| CByte (c : ascii).

Definition in_item (c : ascii) (i : class_item) : bool :=
  match i with
  | CRange lo hi => byte_between lo hi c
  | CByte b => Ascii.eqb c b
  end.

Definition in_class (cls : list class_item) (c : ascii) : bool :=
  existsb (in_item c) cls.

Inductive regex : Type :=
| RNone                         (* matches nothing *)
| REps                          (* the empty string *)
| RClass (cls : list class_item)
| RCat (r1 r2 : regex)
| RAlt (r1 r2 : regex)
| RStar (r : regex).

Definition RPlus (r : regex) : regex := RCat r (RStar r).
Definition RByte (c : ascii) : regex := RClass [CByte c].
(** [x{2,}] *)
Definition RAtLeast2 (r : regex) : regex := RCat r (RCat r (RStar r)).
Definition RAny : regex := RClass [CRange "000" "255"].

Fixpoint nullable (r : regex) : bool :=
  match r with
  | RNone => false
  | REps => true
  | RClass _ => false
  | RCat r1 r2 => nullable r1 && nullable r2
  | RAlt r1 r2 => nullable r1 || nullable r2
  | RStar _ => true
  end.

Fixpoint deriv (c : ascii) (r : regex) : regex :=
  match r with
  | RNone => RNone
  | REps => RNone
  | RClass cls => if in_class cls c then REps else RNone
  | RCat r1 r2 =>
      if nullable r1
      then RAlt (RCat (deriv c r1) r2) (deriv c r2)
      else RCat (deriv c r1) r2
  | RAlt r1 r2 => RAlt (deriv c r1) (deriv c r2)
  | RStar r1 => RCat (deriv c r1) (RStar r1)
  end.

Fixpoint matches (r : regex) (l : list ascii) : bool :=
  match l with
  | [] => nullable r
  | c :: l' => matches (deriv c r) l'
  end.

(** A compiled pattern: the expression between the anchors, and
    whether the pattern text carries [^] and [$]. *)
Record Regexp : Type := MustCompile {
  anchor_begin : bool;
  body : regex;
  anchor_end : bool
}.

(** [re.MatchString(s)]: does [s] contain a match of [re]?  Without an
    anchor the match may start (or end) anywhere. *)
Definition MatchString (re : Regexp) (s : string) : bool :=
  matches
    (RCat (if anchor_begin re then REps else RStar RAny)
       (RCat (body re)
          (if anchor_end re then REps else RStar RAny)))
    (bytes s).

(** The language of an expression. *)
Inductive Lang : regex -> list ascii -> Prop :=
| LEps : Lang REps []
| LClass cls c : in_class cls c = true -> Lang (RClass cls) [c]
| LCat r1 r2 l1 l2 :
    Lang r1 l1 -> Lang r2 l2 -> Lang (RCat r1 r2) (l1 ++ l2)
| LAltL r1 r2 l : Lang r1 l -> Lang (RAlt r1 r2) l
| LAltR r1 r2 l : Lang r2 l -> Lang (RAlt r1 r2) l
| LStarNil r : Lang (RStar r) []
| LStarApp r l1 l2 :
    Lang r l1 -> Lang (RStar r) l2 -> Lang (RStar r) (l1 ++ l2).

End regexp.

(** ** Package encoding/json: the values written to a client *)

Inductive json : Type :=
| JInt (n : Z)
| JBool (b : bool)
| JString (s : string)
| JTime (t : Z)                       (* a marshalled [time.Time] *)
| JArray (l : list json)
| JObject (fields : list (string * json)).

(** ** Package model *)

Module model.

(** [type Gender string] *)
Abbreviation Gender := string (only parsing).

Definition GenderUnknown : Gender := "unknown".
Definition GenderMale : Gender := "male".
Definition GenderFemale : Gender := "female".

Definition ParseGender {U : Unicode} (gender : string) : Gender :=
  let lowered := strings.ToLower gender in
  if String.eqb lowered "male" then GenderMale
  else if String.eqb lowered "female" then GenderFemale
  else GenderUnknown.

Definition IsValid (g : Gender) : bool :=
  String.eqb g GenderMale || String.eqb g GenderFemale
  || String.eqb g GenderUnknown.

Module UserResponse.
Record t : Type := Build {
  ID : Z;
  Username : string;
  Email : string;
  Gender : model.Gender;
  CreatedAt : Z;
  UpdatedAt : Z
}.

(** [json.Marshal] of a [UserResponse], by its field tags. *)
Definition Marshal (r : t) : json :=
  JObject [("id", JInt (ID r)); ("username", JString (Username r));
           ("email", JString (Email r)); ("gender", JString (Gender r));
           ("created_at", JTime (CreatedAt r));
           ("updated_at", JTime (UpdatedAt r))].
End UserResponse.

Module User.
Record t : Type := Build {
  ID : Z;
  Username : string;
  Email : string;
  Gender : model.Gender;
  PasswordHash : string;            (* tagged [json:"-"] *)
  CreatedAt : Z;
  UpdatedAt : Z
}.

Definition ToResponse (u : t) : UserResponse.t :=
  {| UserResponse.ID := ID u;
     UserResponse.Username := Username u;
     UserResponse.Email := Email u;
     UserResponse.Gender := Gender u;
     UserResponse.CreatedAt := CreatedAt u;
     UserResponse.UpdatedAt := UpdatedAt u |}.

(** [json.Marshal] of a [User] (used by [Value]): the field tagged
    [json:"-"] is skipped. *)
Definition Marshal (u : t) : json :=
  JObject [("id", JInt (ID u)); ("username", JString (Username u));
           ("email", JString (Email u)); ("gender", JString (Gender u));
           ("created_at", JTime (CreatedAt u));
           ("updated_at", JTime (UpdatedAt u))].

(** Field assignments [u.F = v]. *)
Definition set_ID (v : Z) (u : t) : t :=
  Build v (Username u) (Email u) (Gender u) (PasswordHash u)
    (CreatedAt u) (UpdatedAt u).
Definition set_Username (v : string) (u : t) : t :=
  Build (ID u) v (Email u) (Gender u) (PasswordHash u)
    (CreatedAt u) (UpdatedAt u).
Definition set_Email (v : string) (u : t) : t :=
  Build (ID u) (Username u) v (Gender u) (PasswordHash u)
    (CreatedAt u) (UpdatedAt u).
Definition set_Gender (v : model.Gender) (u : t) : t :=
  Build (ID u) (Username u) (Email u) v (PasswordHash u)
    (CreatedAt u) (UpdatedAt u).
Definition set_PasswordHash (v : string) (u : t) : t :=
  Build (ID u) (Username u) (Email u) (Gender u) v
    (CreatedAt u) (UpdatedAt u).
Definition set_CreatedAt (v : Z) (u : t) : t :=
  Build (ID u) (Username u) (Email u) (Gender u) (PasswordHash u)
    v (UpdatedAt u).
Definition set_UpdatedAt (v : Z) (u : t) : t :=
  Build (ID u) (Username u) (Email u) (Gender u) (PasswordHash u)
    (CreatedAt u) v.

(** [now] is the value of [time.Now().UTC()]. *)
Definition BeforeCreate (now : Z) (u : t) : t :=
  set_UpdatedAt now (set_CreatedAt now u).
Definition BeforeUpdate (now : Z) (u : t) : t :=
  set_UpdatedAt now u.
End User.

Definition UsernameMinLength : Z := 3.
Definition UsernameMaxLength : Z := 50.
Definition EmailMaxLength : Z := 100.
Definition PasswordMinLength : Z := 8.

Import regexp.

Definition lower_az : class_item := CRange "a" "z".
Definition upper_AZ : class_item := CRange "A" "Z".
Definition digit_09 : class_item := CRange "0" "9".

(** [[a-zA-Z0-9._%+-]] *)
Definition email_local_class : list class_item :=
  [lower_az; upper_AZ; digit_09;
   CByte "."; CByte "_"; CByte "%"; CByte "+"; CByte "-"].
(** [[a-zA-Z0-9.-]] *)
Definition email_domain_class : list class_item :=
  [lower_az; upper_AZ; digit_09; CByte "."; CByte "-"].
(** [[a-zA-Z]] *)
Definition letter_class : list class_item := [lower_az; upper_AZ].
(** [[a-zA-Z0-9_-]] *)
Definition username_class : list class_item :=
  [lower_az; upper_AZ; digit_09; CByte "_"; CByte "-"].

(** [^[a-zA-Z0-9._%+-]+@[a-zA-Z0-9.-]+\.[a-zA-Z]{2,}$] *)
Definition emailRegex : Regexp :=
  MustCompile true
    (RCat (RPlus (RClass email_local_class))
       (RCat (RByte "@")
          (RCat (RPlus (RClass email_domain_class))
             (RCat (RByte ".") (RAtLeast2 (RClass letter_class))))))
    true.

(** [^[a-zA-Z0-9_-]+$] *)
Definition usernameRegex : Regexp :=
  MustCompile true (RPlus (RClass username_class)) true.

Definition validateUsername (username : string) : error :=
  if len username <? UsernameMinLength then
    Some "username is too short"
  else if len username >? UsernameMaxLength then
    Some "username is too long"
  else if negb (MatchString usernameRegex username) then
    Some "username can only contain alphanumeric characters, underscores, and hyphens"
  else None.

Definition validateEmail (email : string) : error :=
  if len email >? EmailMaxLength then
    Some "email is too long"
  else if negb (MatchString emailRegex email) then
    Some "invalid email format"
  else None.

Definition validateGender {U : Unicode} (gender : string) : error :=
  if String.eqb gender "" then None
  else
    let parsedGender := ParseGender gender in
    if negb (IsValid parsedGender) then
      Some "gender must be one of: male, female, unknown"
    else None.

Definition validatePassword (password : string) : error :=
  if len password <? PasswordMinLength then
    Some "password is too short"
  else
    let hasUpper :=
      MatchString (MustCompile false (RClass [upper_AZ]) false) password in
    let hasLower :=
      MatchString (MustCompile false (RClass [lower_az]) false) password in
    let hasNumber :=
      MatchString (MustCompile false (RClass [digit_09]) false) password in
    if negb hasUpper || negb hasLower || negb hasNumber then
      Some "password must contain at least one uppercase letter, one lowercase letter, and one number"
    else None.

(** [fmt.Errorf(prefix + ": %w", err)] *)
Definition wrap (prefix : string) (msg : string) : string :=
  prefix +:+ ": " +:+ msg.

Module UserCreateRequest.
Record t : Type := Build {
  Username : string;
  Email : string;
  Gender : string;
  Password : string
}.

Definition Validate {U : Unicode} (ucr : t) : error :=
  match validateUsername (Username ucr) with
  | Some err => Some (wrap "username validation failed" err)
  | None =>
  match validateEmail (Email ucr) with
  | Some err => Some (wrap "email validation failed" err)
  | None =>
  match validateGender (Gender ucr) with
  | Some err => Some (wrap "gender validation failed" err)
  | None =>
  match validatePassword (Password ucr) with
  | Some err => Some (wrap "password validation failed" err)
  | None => None
  end end end end.
End UserCreateRequest.

Module UserUpdateRequest.
Record t : Type := Build {
  Username : option string;
  Email : option string;
  Gender : option string;
  Password : option string
}.

(** A check guarded by [if p != nil]: it runs on the pointed-to value
    of a field that is present and is skipped for a nil field. *)
Definition check_present (p : option string) (check : string -> error)
  : error :=
  match p with
  | Some v => check v
  | None => None
  end.

Definition Validate {U : Unicode} (uur : t) : error :=
  match check_present (Username uur) validateUsername with
  | Some err => Some (wrap "username validation failed" err)
  | None =>
  match check_present (Email uur) validateEmail with
  | Some err => Some (wrap "email validation failed" err)
  | None =>
  match check_present (Gender uur) validateGender with
  | Some err => Some (wrap "gender validation failed" err)
  | None =>
  match check_present (Password uur) validatePassword with
  | Some err => Some (wrap "password validation failed" err)
  | None => None
  end end end end.
End UserUpdateRequest.

End model.

(** ** Package gin: the request context *)

Module gin.

(** The values this program stores under context keys. *)
Inductive any : Type :=
| AInt (n : Z)
| AString (s : string).

Record Context : Type := Build {
  Header : gmap string string;        (* request headers *)
  Body : string;                      (* request body *)
  Keys : gmap string any;             (* the key bag of [Set]/[Get] *)
  Written : list (Z * json);          (* responses written, oldest first *)
  index : Z                           (* position in the handler chain *)
}.

Definition abortIndex : Z := 63.

Definition GetHeader (key : string) (c : Context) : string :=
  default "" (Header c !! key).

Definition JSON (code : Z) (obj : json) (c : Context) : Context :=
  Build (Header c) (Body c) (Keys c) (Written c ++ [(code, obj)]) (index c).

Definition Abort (c : Context) : Context :=
  Build (Header c) (Body c) (Keys c) (Written c) abortIndex.

Definition IsAborted (c : Context) : bool := abortIndex <=? index c.

Definition Set_ (key : string) (value : any) (c : Context) : Context :=
  Build (Header c) (Body c) (<[key := value]> (Keys c)) (Written c)
    (index c).

Definition Get (key : string) (c : Context) : option any := Keys c !! key.

Definition H (fields : list (string * json)) : json := JObject fields.

Definition StatusOK : Z := 200.
Definition StatusCreated : Z := 201.
Definition StatusBadRequest : Z := 400.
Definition StatusUnauthorized : Z := 401.
Definition StatusNotFound : Z := 404.
Definition StatusConflict : Z := 409.
Definition StatusInternalServerError : Z := 500.

End gin.

(** [c.ShouldBindJSON(&req)] for a request struct [T]: decoding of the
    body and the checks of the struct's [binding] tags, both done by gin. *)
Class Bindable (T : Type) : Type := {
  ShouldBindJSON : gin.Context -> result T
}.

(** ** Package auth *)

(** Package golang.org/x/crypto/bcrypt.  [GenerateFromPassword] draws a
    random salt, passed here as [entropy]. *)
Class Bcrypt : Type := {
  GenerateFromPassword :
    string (* password *) -> Z (* cost *) -> string (* entropy *) ->
    result string;
  CompareHashAndPassword : string (* hash *) -> string (* password *) -> error
}.

Module auth.

Definition DefaultCost : Z := 10.

Definition HashPassword {B : Bcrypt} (password entropy : string)
  : result string :=
  match GenerateFromPassword password DefaultCost entropy with
  | Err err => Err (model.wrap "failed to hash password" err)
  | Ok hashedBytes => Ok hashedBytes
  end.

Definition CheckPassword {B : Bcrypt} (password hash : string) : error :=
  match CompareHashAndPassword hash password with
  | Some _ => Some "invalid password"
  | None => None
  end.

(** Modelled from the spec: the claim set carried by a session token.
    The declarations of [Claims] and [JWTManager] in package auth are
    missing; the fields are those the handlers read and the data model
    of the specification lists. *)
Record Claims : Type := {
  UserID : Z;
  Username : string;
  Email : string;
  IssuedAt : Z;
  ExpiresAt : Z
}.

(** Modelled from the spec: the issuer's configuration, a signing
    secret and a time to live. *)
Record JWTManager : Type := NewJWTManager {
  secretKey : string;
  tokenDuration : Z
}.

(** The token issuer and verifier, the methods [GenerateToken] and
    [ValidateToken] of a [JWTManager]; [now] is the clock they read. *)
Class JWT : Type := {
  GenerateToken :
    JWTManager -> Z (* now *) -> Z -> string -> string -> result string;
  ValidateToken : JWTManager -> Z (* now *) -> string -> result Claims
}.

Import gin.

(** [AuthMiddleware(jwtManager)]: the handler it returns, applied to
    the context [c].  [next] is [c.Next()], the rest of the chain. *)
Definition AuthMiddleware {J : JWT} (jwtManager : JWTManager) (now : Z)
    (next : Context -> Context) (c : Context) : Context :=
  let authHeader := GetHeader "Authorization" c in
  if String.eqb authHeader "" then
    Abort (JSON StatusUnauthorized
             (H [("error", JString "Authorization header is required")]) c)
  else
    match strings.SplitN2 authHeader " " with
    | [scheme; token] =>
        if negb (String.eqb scheme "Bearer") then
          Abort (JSON StatusUnauthorized
                   (H [("error",
                        JString "Invalid authorization header format")]) c)
        else
          match ValidateToken jwtManager now token with
          | Err _ =>
              Abort (JSON StatusUnauthorized
                       (H [("error", JString "Invalid or expired token")]) c)
          | Ok claims =>
              next
                (Set_ "email" (AString (Email claims))
                   (Set_ "username" (AString (Username claims))
                      (Set_ "user_id" (AInt (UserID claims)) c)))
          end
    | _ =>
        Abort (JSON StatusUnauthorized
                 (H [("error",
                      JString "Invalid authorization header format")]) c)
    end.

Definition GetUserID (c : Context) : Z * bool :=
  match Get "user_id" c with
  | Some (AInt id) => (id, true)
  | _ => (0, false)
  end.

Definition GetUsername (c : Context) : string * bool :=
  match Get "username" c with
  | Some (AString name) => (name, true)
  | _ => ("", false)
  end.

Definition GetEmail (c : Context) : string * bool :=
  match Get "email" c with
  | Some (AString e) => (e, true)
  | _ => ("", false)
  end.

End auth.

(** ** Package repository: the users table *)

Module repository.

(** One row of [users]; the primary key [id] is the key of the map. *)
Record Row : Type := {
  username : string;
  email : string;
  gender : string;
  password_hash : string;
  created_at : Z;
  updated_at : Z
}.

(** The database behind [*sql.DB].  [faults] is what the driver will
    answer to the coming statements: [None] lets the statement run,
    [Some e] makes it fail with [e] and change nothing.  A fault stands
    for any error the server or the connection can report. *)
Record DB : Type := {
  users : gmap Z Row;
  faults : list (option string)
}.

Definition driver (db : DB) : option string * DB :=
  match faults db with
  | [] => (None, db)
  | f :: fs => (f, {| users := users db; faults := fs |})
  end.

Definition scan (id : Z) (r : Row) : model.User.t :=
  model.User.Build id (username r) (email r) (gender r) (password_hash r)
    (created_at r) (updated_at r).

(** The first row of a [SELECT ... WHERE] whose condition is [p]. *)
Definition QueryRow (p : Row -> bool) (db : DB) : option (Z * Row) :=
  List.find (fun ir => p ir.2) (map_to_list (users db)).

(** [SELECT COUNT( * ) ... WHERE] *)
Definition Count (p : Row -> bool) (db : DB) : Z :=
  Z.of_nat (List.length (List.filter (fun ir => p ir.2) (map_to_list (users db)))).

Definition GetByID (id : Z) (db : DB) : result model.User.t * DB :=
  let '(f, db) := driver db in
  match f with
  | Some e => (Err (model.wrap "failed to get user" e), db)
  | None =>
      match users db !! id with
      | None => (Err ("user with ID " +:+ itoa id +:+ " not found"), db)
      | Some r => (Ok (scan id r), db)
      end
  end.

Definition GetByEmail (addr : string) (db : DB) : result model.User.t * DB :=
  let '(f, db) := driver db in
  match f with
  | Some e => (Err (model.wrap "failed to get user" e), db)
  | None =>
      match QueryRow (fun r => String.eqb (email r) addr) db with
      | None => (Err ("user with email '" +:+ addr +:+ "' not found"), db)
      | Some (id, r) => (Ok (scan id r), db)
      end
  end.

Definition ExistsByUsername (name : string) (db : DB) : result bool * DB :=
  let '(f, db) := driver db in
  match f with
  | Some e => (Err (model.wrap "failed to check username existence" e), db)
  | None => (Ok (Count (fun r => String.eqb (username r) name) db >? 0), db)
  end.

Definition ExistsByEmail (addr : string) (db : DB) : result bool * DB :=
  let '(f, db) := driver db in
  match f with
  | Some e => (Err (model.wrap "failed to check email existence" e), db)
  | None => (Ok (Count (fun r => String.eqb (email r) addr) db >? 0), db)
  end.

(** [Update(user)].  The method first stamps [user.UpdatedAt] through
    the pointer, so the caller's user is returned as well.  The
    statement writes every column but [id] and [created_at]; it affects
    one row when the id exists and none otherwise.  (Reading the number
    of affected rows does not fail with this driver.) *)
Definition Update (user : model.User.t) (now : Z) (db : DB)
  : error * model.User.t * DB :=
  let user := model.User.BeforeUpdate now user in
  let '(f, db) := driver db in
  match f with
  | Some e => (Some (model.wrap "failed to update user" e), user, db)
  | None =>
      match users db !! model.User.ID user with
      | None =>
          (Some ("user with ID " +:+ itoa (model.User.ID user) +:+ " not found"),
           user, db)
      | Some r =>
          let r' := {| username := model.User.Username user;
                       email := model.User.Email user;
                       gender := model.User.Gender user;
                       password_hash := model.User.PasswordHash user;
                       created_at := created_at r;
                       updated_at := model.User.UpdatedAt user |} in
          (None, user,
           {| users := <[model.User.ID user := r']> (users db);
              faults := faults db |})
      end
  end.

Definition GetByUsername (name : string) (db : DB)
  : result model.User.t * DB :=
  let '(f, db) := driver db in
  match f with
  | Some e => (Err (model.wrap "failed to get user" e), db)
  | None =>
      match QueryRow (fun r => String.eqb (username r) name) db with
      | None => (Err ("user with username '" +:+ name +:+ "' not found"), db)
      | Some (id, r) => (Ok (scan id r), db)
      end
  end.

(** The server's report of an insert whose key is taken. *)
Definition duplicate_key : string :=
  "pq: duplicate key value violates unique constraint".

(** [Create(user)].  [serial] is the id the column default draws from
    the table's sequence.  The insert fails, changing nothing, when the
    driver fails or the key is taken; otherwise the row is added and
    the id is written to [user.ID] through the pointer. *)
Definition Create (user : model.User.t) (serial : Z) (db : DB)
  : error * model.User.t * DB :=
  let '(f, db) := driver db in
  match f with
  | Some e => (Some (model.wrap "failed to create user" e), user, db)
  | None =>
      match users db !! serial with
      | Some _ =>
          (Some (model.wrap "failed to create user" duplicate_key), user, db)
      | None =>
          let r := {| username := model.User.Username user;
                      email := model.User.Email user;
                      gender := model.User.Gender user;
                      password_hash := model.User.PasswordHash user;
                      created_at := model.User.CreatedAt user;
                      updated_at := model.User.UpdatedAt user |} in
          (None, model.User.set_ID serial user,
           {| users := <[serial := r]> (users db); faults := faults db |})
      end
  end.

Definition Delete (id : Z) (db : DB) : error * DB :=
  let '(f, db) := driver db in
  match f with
  | Some e => (Some (model.wrap "failed to delete user" e), db)
  | None =>
      match users db !! id with
      | None => (Some ("user with ID " +:+ itoa id +:+ " not found"), db)
      | Some _ =>
          (None, {| users := delete id (users db); faults := faults db |})
      end
  end.

(** [ORDER BY created_at DESC]: a row comes before the rows created
    no later than it. *)
Definition created_desc (a b : Z * Row) : Prop :=
  created_at b.2 <= created_at a.2.

Global Instance created_desc_dec : RelDecision created_desc.
Proof. intros a b. unfold created_desc. apply _. Defined.

(** [List()].  The query is one statement; the iteration over its rows
    can fail as well ([rows.Err()]). *)
Definition List (db : DB) : result (list model.User.t) * DB :=
  let '(f, db) := driver db in
  match f with
  | Some e => (Err (model.wrap "failed to list users" e), db)
  | None =>
      let rows := merge_sort created_desc (map_to_list (users db)) in
      let '(f', db) := driver db in
      match f' with
      | Some e => (Err (model.wrap "error iterating over users" e), db)
      | None => (Ok (map (fun ir => scan ir.1 ir.2) rows), db)
      end
  end.

Definition GetTotalCount (db : DB) : result Z * DB :=
  let '(f, db) := driver db in
  match f with
  | Some e => (Err (model.wrap "failed to get user count" e), db)
  | None => (Ok (Count (fun _ => true) db), db)
  end.

(** [UpdatePassword(userID, passwordHash)]; [now] is the clock read for
    [updated_at]. *)
Definition UpdatePassword (userID : Z) (passwordHash : string) (now : Z)
    (db : DB) : error * DB :=
  let '(f, db) := driver db in
  match f with
  | Some e => (Some (model.wrap "failed to update password" e), db)
  | None =>
      match users db !! userID with
      | None => (Some ("user with ID " +:+ itoa userID +:+ " not found"), db)
      | Some r =>
          let r' := {| username := username r;
                       email := email r;
                       gender := gender r;
                       password_hash := passwordHash;
                       created_at := created_at r;
                       updated_at := now |} in
          (None, {| users := <[userID := r']> (users db);
                    faults := faults db |})
      end
  end.

End repository.

(** ** Package encoding/base64: the URL alphabet, with padding *)

Module base64.

Definition encodeURL : list ascii :=
  bytes "ABCDEFGHIJKLMNOPQRSTUVWXYZabcdefghijklmnopqrstuvwxyz0123456789-_".

(** The character of the six-bit value [v]. *)
Definition enc (v : Z) : ascii := nth (Z.to_nat v) encodeURL "A"%char.

Definition StdPadding : ascii := "="%char.

(** [URLEncoding.EncodeToString]: three bytes give four characters; a
    rest of one or two bytes is padded to four. *)
Fixpoint EncodeToString (src : list ascii) : list ascii :=
  match src with
  | [] => []
  | [a] =>
      let va := byte_val a in
      [enc (Z.shiftr va 2); enc (Z.shiftl (Z.land va 3) 4);
       StdPadding; StdPadding]
  | [a; b] =>
      let va := byte_val a in
      let vb := byte_val b in
      [enc (Z.shiftr va 2);
       enc (Z.lor (Z.shiftl (Z.land va 3) 4) (Z.shiftr vb 4));
       enc (Z.shiftl (Z.land vb 15) 2);
       StdPadding]
  | a :: b :: c :: rest =>
      let va := byte_val a in
      let vb := byte_val b in
      let vc := byte_val c in
      enc (Z.shiftr va 2)
      :: enc (Z.lor (Z.shiftl (Z.land va 3) 4) (Z.shiftr vb 4))
      :: enc (Z.lor (Z.shiftl (Z.land vb 15) 2) (Z.shiftr vc 6))
      :: enc (Z.land vc 63)
      :: EncodeToString rest
  end.

End base64.

(** ** Package app: the process configuration *)

Module app.

Record AppConfig : Type := {
  AppName : string;
  JWTSecret : string;
  JWTExpiration : Z                     (* in hours *)
}.

Definition config : AppConfig :=
  {| AppName := "WishlistSNS";
     JWTSecret := "your-super-secret-jwt-key-change-in-production";
     JWTExpiration := 24 |}.

Definition GetConfig : AppConfig := config.

(** [time.Hour], in nanoseconds. *)
Definition Hour : Z := 3600 * 1000000000.

End app.

(** ** Package action: the handlers *)

Module action.

Import gin.

Module UserLoginRequest.
Record t : Type := Build {
  Email : string;
  Password : string
}.
End UserLoginRequest.

Module UserLoginResponse.
Record t : Type := Build {
  Token : string;
  User : model.UserResponse.t;
  ExpiresIn : Z;
  TokenType : string
}.

Definition Marshal (r : t) : json :=
  JObject [("token", JString (Token r));
           ("user", model.UserResponse.Marshal (User r));
           ("expires_in", JInt (ExpiresIn r));
           ("token_type", JString (TokenType r))].
End UserLoginResponse.

(** The handler returned by [ActionLogin()], run on [ctx] with the
    database [db]; [now] is the clock read when the token is minted. *)
Definition ActionLogin {Bd : Bindable UserLoginRequest.t} {B : Bcrypt} {J : auth.JWT}
    (now : Z) (ctx : Context) (db : repository.DB)
  : Context * repository.DB :=
  match ShouldBindJSON ctx with
  | Err err =>
      (JSON StatusBadRequest
         (H [("error", JString "Invalid request format");
             ("details", JString err)]) ctx, db)
  | Ok req =>
  let '(found, db) := repository.GetByEmail (UserLoginRequest.Email req) db in
  match found with
  | Err _ =>
      (JSON StatusUnauthorized
         (H [("error", JString "Invalid email or password")]) ctx, db)
  | Ok user =>
  match auth.CheckPassword (UserLoginRequest.Password req)
          (model.User.PasswordHash user) with
  | Some _ =>
      (JSON StatusUnauthorized
         (H [("error", JString "Invalid email or password")]) ctx, db)
  | None =>
  let config := app.GetConfig in
  let jwtManager :=
    auth.NewJWTManager (app.JWTSecret config)
      (app.JWTExpiration config * app.Hour) in
  match auth.GenerateToken jwtManager now (model.User.ID user)
          (model.User.Username user) (model.User.Email user) with
  | Err err =>
      (JSON StatusInternalServerError
         (H [("error", JString "Failed to generate authentication token");
             ("details", JString err)]) ctx, db)
  | Ok token =>
      (JSON StatusOK
         (H [("message", JString "Login successful");
             ("data",
              UserLoginResponse.Marshal
                {| UserLoginResponse.Token := token;
                   UserLoginResponse.User := model.User.ToResponse user;
                   UserLoginResponse.ExpiresIn :=
                     app.JWTExpiration config * 3600;
                   UserLoginResponse.TokenType := "Bearer" |})]) ctx, db)
  end end end end.

(** The outcome of one step of a handler: it has answered the request
    (and returns), or it goes on with a value. *)
Inductive step (A : Type) : Type :=
| Return (ctx : Context) (db : repository.DB)
| Continue (v : A) (db : repository.DB).
Arguments Return {A} ctx db.
Arguments Continue {A} v db.

(** The username block of [ActionUpdateProfile]: the availability check
    and the assignment run only for a username that is present and
    differs from the stored one. *)
Definition update_username (req : model.UserUpdateRequest.t)
    (user : model.User.t) (ctx : Context) (db : repository.DB)
  : step model.User.t :=
  match model.UserUpdateRequest.Username req with
  | Some name =>
      if negb (String.eqb name (model.User.Username user)) then
        let '(res, db) := repository.ExistsByUsername name db in
        match res with
        | Err err =>
            Return
              (JSON StatusInternalServerError
                 (H [("error", JString "Failed to check username availability");
                     ("details", JString err)]) ctx) db
        | Ok true =>
            Return
              (JSON StatusConflict
                 (H [("error", JString "Username already exists")]) ctx) db
        | Ok false => Continue (model.User.set_Username name user) db
        end
      else Continue user db
  | None => Continue user db
  end.

(** The email block of [ActionUpdateProfile]. *)
Definition update_email (req : model.UserUpdateRequest.t)
    (user : model.User.t) (ctx : Context) (db : repository.DB)
  : step model.User.t :=
  match model.UserUpdateRequest.Email req with
  | Some addr =>
      if negb (String.eqb addr (model.User.Email user)) then
        let '(res, db) := repository.ExistsByEmail addr db in
        match res with
        | Err err =>
            Return
              (JSON StatusInternalServerError
                 (H [("error", JString "Failed to check email availability");
                     ("details", JString err)]) ctx) db
        | Ok true =>
            Return
              (JSON StatusConflict
                 (H [("error", JString "Email already exists")]) ctx) db
        | Ok false => Continue (model.User.set_Email addr user) db
        end
      else Continue user db
  | None => Continue user db
  end.

(** The gender block. *)
Definition update_gender {U : Unicode} (req : model.UserUpdateRequest.t)
    (user : model.User.t) : model.User.t :=
  match model.UserUpdateRequest.Gender req with
  | Some g => model.User.set_Gender (model.ParseGender g) user
  | None => user
  end.

(** The password block; [entropy] is the salt drawn by the hasher. *)
Definition update_password {B : Bcrypt} (req : model.UserUpdateRequest.t)
    (entropy : string) (user : model.User.t) (ctx : Context)
    (db : repository.DB) : step model.User.t :=
  match model.UserUpdateRequest.Password req with
  | Some password =>
      match auth.HashPassword password entropy with
      | Err err =>
          Return
            (JSON StatusInternalServerError
               (H [("error", JString "Failed to hash password");
                   ("details", JString err)]) ctx) db
      | Ok passwordHash =>
          Continue (model.User.set_PasswordHash passwordHash user) db
      end
  | None => Continue user db
  end.

(** The handler returned by [ActionUpdateProfile()].  [now1] is the
    clock read by the handler's [BeforeUpdate], [now2] the one read by
    the repository's. *)
Definition ActionUpdateProfile
    {Bd : Bindable model.UserUpdateRequest.t} {U : Unicode} {B : Bcrypt}
    (entropy : string) (now1 now2 : Z) (ctx : Context) (db : repository.DB)
  : Context * repository.DB :=
  let '(userID, exists_) := auth.GetUserID ctx in
  if negb exists_ then
    (JSON StatusUnauthorized
       (H [("error", JString "User not authenticated")]) ctx, db)
  else
  match ShouldBindJSON ctx with
  | Err err =>
      (JSON StatusBadRequest
         (H [("error", JString "Invalid request format");
             ("details", JString err)]) ctx, db)
  | Ok req =>
  match model.UserUpdateRequest.Validate req with
  | Some err =>
      (JSON StatusBadRequest
         (H [("error", JString "Validation failed");
             ("details", JString err)]) ctx, db)
  | None =>
  let '(found, db) := repository.GetByID userID db in
  match found with
  | Err err =>
      (JSON StatusNotFound
         (H [("error", JString "User not found");
             ("details", JString err)]) ctx, db)
  | Ok user =>
  match update_username req user ctx db with
  | Return ctx db => (ctx, db)
  | Continue user db =>
  match update_email req user ctx db with
  | Return ctx db => (ctx, db)
  | Continue user db =>
  let user := update_gender req user in
  match update_password req entropy user ctx db with
  | Return ctx db => (ctx, db)
  | Continue user db =>
  let user := model.User.BeforeUpdate now1 user in
  let '(err, user, db) := repository.Update user now2 db in
  match err with
  | Some err =>
      (JSON StatusInternalServerError
         (H [("error", JString "Failed to update user");
             ("details", JString err)]) ctx, db)
  | None =>
      (JSON StatusOK
         (H [("message", JString "Profile updated successfully");
             ("data", model.UserResponse.Marshal (model.User.ToResponse user))])
         ctx, db)
  end end end end end end end.

(** The handler returned by [ActionCreateUser()].  [entropy] is the salt
    drawn by the hasher, [now] the clock read by [BeforeCreate] and
    [serial] the id drawn by the insert. *)
Definition ActionCreateUser
    {Bd : Bindable model.UserCreateRequest.t} {U : Unicode} {B : Bcrypt}
    (entropy : string) (now serial : Z) (ctx : Context) (db : repository.DB)
  : Context * repository.DB :=
  match ShouldBindJSON ctx with
  | Err err =>
      (JSON StatusBadRequest
         (H [("error", JString "Invalid request format");
             ("details", JString err)]) ctx, db)
  | Ok req =>
  match model.UserCreateRequest.Validate req with
  | Some err =>
      (JSON StatusBadRequest
         (H [("error", JString "Validation failed");
             ("details", JString err)]) ctx, db)
  | None =>
  let '(taken, db) :=
    repository.ExistsByUsername (model.UserCreateRequest.Username req) db in
  match taken with
  | Err err =>
      (JSON StatusInternalServerError
         (H [("error", JString "Failed to check username availability");
             ("details", JString err)]) ctx, db)
  | Ok true =>
      (JSON StatusConflict
         (H [("error", JString "Username already exists")]) ctx, db)
  | Ok false =>
  let '(taken, db) :=
    repository.ExistsByEmail (model.UserCreateRequest.Email req) db in
  match taken with
  | Err err =>
      (JSON StatusInternalServerError
         (H [("error", JString "Failed to check email availability");
             ("details", JString err)]) ctx, db)
  | Ok true =>
      (JSON StatusConflict
         (H [("error", JString "Email already exists")]) ctx, db)
  | Ok false =>
  match auth.HashPassword (model.UserCreateRequest.Password req) entropy with
  | Err err =>
      (JSON StatusInternalServerError
         (H [("error", JString "Failed to hash password");
             ("details", JString err)]) ctx, db)
  | Ok passwordHash =>
  let user :=
    model.User.BeforeCreate now
      (model.User.Build 0 (model.UserCreateRequest.Username req)
         (model.UserCreateRequest.Email req)
         (model.ParseGender (model.UserCreateRequest.Gender req))
         passwordHash 0 0) in
  let '(err, user, db) := repository.Create user serial db in
  match err with
  | Some err =>
      (JSON StatusInternalServerError
         (H [("error", JString "Failed to create user");
             ("details", JString err)]) ctx, db)
  | None =>
      (JSON StatusCreated
         (H [("message", JString "User created successfully");
             ("user", model.UserResponse.Marshal (model.User.ToResponse user))])
         ctx, db)
  end end end end end end.

(** The handler returned by [ActionListUsers()]. *)
Definition ActionListUsers (ctx : Context) (db : repository.DB)
  : Context * repository.DB :=
  let '(res, db) := repository.List db in
  match res with
  | Err err =>
      (JSON StatusInternalServerError
         (H [("error", JString "Failed to retrieve users");
             ("details", JString err)]) ctx, db)
  | Ok users =>
      let userResponses := map model.User.ToResponse users in
      (JSON StatusOK
         (H [("message",
              JString ("Retrieved " +:+ itoa (Z.of_nat (length users))
                       +:+ " users"));
             ("users", JArray (map model.UserResponse.Marshal userResponses))])
         ctx, db)
  end.

(** The handler returned by [ActionGetProfile()]. *)
Definition ActionGetProfile (ctx : Context) (db : repository.DB)
  : Context * repository.DB :=
  let '(userID, exists_) := auth.GetUserID ctx in
  if negb exists_ then
    (JSON StatusUnauthorized
       (H [("error", JString "User not authenticated")]) ctx, db)
  else
  let '(found, db) := repository.GetByID userID db in
  match found with
  | Err err =>
      (JSON StatusNotFound
         (H [("error", JString "User not found");
             ("details", JString err)]) ctx, db)
  | Ok user =>
      (JSON StatusOK
         (H [("message", JString "Profile retrieved successfully");
             ("data", model.UserResponse.Marshal (model.User.ToResponse user))])
         ctx, db)
  end.

(** The handler returned by [ActionRefreshToken()]; [now] is the clock
    read when the new token is minted. *)
Definition ActionRefreshToken {J : auth.JWT} (now : Z) (ctx : Context)
  : Context :=
  let '(userID, exists_) := auth.GetUserID ctx in
  if negb exists_ then
    JSON StatusUnauthorized (H [("error", JString "User not authenticated")])
      ctx
  else
  let '(username, exists_) := auth.GetUsername ctx in
  if negb exists_ then
    JSON StatusUnauthorized (H [("error", JString "User not authenticated")])
      ctx
  else
  let '(email, exists_) := auth.GetEmail ctx in
  if negb exists_ then
    JSON StatusUnauthorized (H [("error", JString "User not authenticated")])
      ctx
  else
  let config := app.GetConfig in
  let jwtManager :=
    auth.NewJWTManager (app.JWTSecret config)
      (app.JWTExpiration config * app.Hour) in
  match auth.GenerateToken jwtManager now userID username email with
  | Err err =>
      JSON StatusInternalServerError
        (H [("error", JString "Failed to refresh authentication token");
            ("details", JString err)]) ctx
  | Ok token =>
      JSON StatusOK
        (H [("message", JString "Token refreshed successfully");
            ("data",
             H [("token", JString token);
                ("expires_in", JInt (app.JWTExpiration config * 3600));
                ("token_type", JString "Bearer")])]) ctx
  end.

Module EmailVerificationRequest.
Record t : Type := Build {
  Email : string
}.
End EmailVerificationRequest.

(** The handler returned by [ActionSendVerificationCode()]. *)
Definition ActionSendVerificationCode
    {Bd : Bindable EmailVerificationRequest.t}
    (ctx : Context) (db : repository.DB) : Context * repository.DB :=
  match ShouldBindJSON ctx with
  | Err err =>
      (JSON StatusBadRequest
         (H [("error", JString "Invalid request format");
             ("details", JString err)]) ctx, db)
  | Ok req =>
  let '(found, db) :=
    repository.GetByEmail (EmailVerificationRequest.Email req) db in
  match found with
  | Err _ =>
      (JSON StatusNotFound
         (H [("error", JString "User with this email not found")]) ctx, db)
  | Ok _ =>
      (JSON StatusOK
         (H [("message", JString "Verification code sent successfully");
             ("data",
              H [("email", JString (EmailVerificationRequest.Email req));
                 ("code", JString "123456");
                 ("expires_in_minutes", JInt 10)])]) ctx, db)
  end end.

Module EmailVerificationConfirmRequest.
Record t : Type := Build {
  Email : string;
  Code : string
}.
End EmailVerificationConfirmRequest.

(** The handler returned by [ActionConfirmVerificationCode()]. *)
Definition ActionConfirmVerificationCode
    {Bd : Bindable EmailVerificationConfirmRequest.t}
    (ctx : Context) (db : repository.DB) : Context * repository.DB :=
  match ShouldBindJSON ctx with
  | Err err =>
      (JSON StatusBadRequest
         (H [("error", JString "Invalid request format");
             ("details", JString err)]) ctx, db)
  | Ok req =>
  let '(found, db) :=
    repository.GetByEmail (EmailVerificationConfirmRequest.Email req) db in
  match found with
  | Err _ =>
      (JSON StatusNotFound
         (H [("error", JString "User with this email not found")]) ctx, db)
  | Ok _ =>
      if negb (String.eqb (EmailVerificationConfirmRequest.Code req) "123456")
      then
        (JSON StatusBadRequest
           (H [("error", JString "Invalid verification code")]) ctx, db)
      else
        (JSON StatusOK
           (H [("message", JString "Email verified successfully");
               ("data",
                H [("email",
                    JString (EmailVerificationConfirmRequest.Email req));
                   ("verified", JBool true)])]) ctx, db)
  end end.

(** [generateRandomString(length, prefix)].  [random i] is the [i]-th
    byte delivered by [rand.Read].  The result is [None] when the
    function panics: a negative length given to [make], or a slice
    bound beyond the encoded text. *)
Definition generateRandomString (length : Z) (prefix : string)
    (random : nat -> ascii) : option string :=
  let length :=
    if negb (String.eqb prefix "") then length - len prefix else length in
  if negb (String.eqb prefix "") && (length <=? 0) then Some prefix
  else if length <? 0 then None
  else
    let buf := map random (seq 0 (Z.to_nat length)) in
    let encoded := base64.EncodeToString buf in
    if Z.of_nat (List.length encoded) <? length then None
    else
      let randomPart := of_bytes (take (Z.to_nat length) encoded) in
      if negb (String.eqb prefix "") then Some (prefix +:+ randomPart)
      else Some randomPart.


End action.

(** * Vocabulary of the specification *)

Module spec.

Import regexp model gin auth.

(** A word all of whose bytes lie in a class. *)
Definition all_in (cls : list class_item) (l : list ascii) : Prop :=
  Forall (fun c => in_class cls c = true) l.

(** A request is checked field by field, in the order of [checks]; the
    first check that fails decides the result. *)
Fixpoint first_failure (checks : list (string * error)) : error :=
  match checks with
  | [] => None
  | (field, Some err) :: _ => Some (wrap (field +:+ " validation failed") err)
  | (_, None) :: rest => first_failure rest
  end.

(** The check of a field of a partial update: none for an absent field. *)
Definition present (field : string) (p : option string)
    (check : string -> error) : list (string * error) :=
  match p with
  | Some v => [(field, check v)]
  | None => []
  end.

(** [[a-zA-Z0-9-]]: the bytes of a domain label. *)
Definition label_class : list class_item :=
  [lower_az; upper_AZ; digit_09; CByte "-"].

(** Labels written one after the other with a ['.'] in between. *)
Fixpoint join_dot (labels : list (list ascii)) : list ascii :=
  match labels with
  | [] => []
  | l :: ls =>
      match ls with
      | [] => l
      | _ :: _ => l ++ "."%char :: join_dot ls
      end
  end.

Definition dot_labels (d : list ascii) : Prop :=
  exists labels, d = join_dot labels /\ Forall (all_in label_class) labels.

(** The pattern of the specification, [local-part@domain.tld]: a
    non-empty local part over [[A-Za-z0-9._%+-]], a non-empty domain
    made of labels separated by ['.'], and a final label of at least two
    letters. *)
Definition spec_email_pattern (s : string) : Prop :=
  exists local domain tld : list ascii,
    bytes s = local ++ "@"%char :: domain ++ "."%char :: tld /\
    local <> [] /\ all_in email_local_class local /\
    domain <> [] /\ dot_labels domain /\
    (2 <= length tld)%nat /\ all_in letter_class tld.

(** The gate's refusal: a 401 answer carrying [msg], and the chain
    aborted. *)
Definition unauthorized (msg : string) (c : Context) : Context :=
  Abort (JSON StatusUnauthorized (H [("error", JString msg)]) c).

(** The identity published to the handlers behind the gate. *)
Definition attach (claims : Claims) (c : Context) : Context :=
  Set_ "email" (AString (Email claims))
    (Set_ "username" (AString (Username claims))
       (Set_ "user_id" (AInt (UserID claims)) c)).

(** The header has the two-part shape [Bearer <value>]. *)
Definition bearer_shape (h : string) : Prop :=
  exists value, h = "Bearer " +:+ value.

(** The answer of the login handler to a failed authentication. *)
Definition invalid_credential (ctx : Context) : Context :=
  JSON StatusUnauthorized
    (H [("error", JString "Invalid email or password")]) ctx.

(** What a block of the update handler may do: it answers the request or
    goes on with a user satisfying [Q], and keeps the table either way. *)
Definition block_ok (db : repository.DB) (user : model.User.t)
    (st : action.step model.User.t) (Q : model.User.t -> Prop) : Prop :=
  match st with
  | action.Return _ db' => repository.users db' = repository.users db
  | action.Continue user' db' =>
      repository.users db' = repository.users db /\ Q user'
  end.

(** The driver lets the coming statement run. *)
Definition ready (db : repository.DB) : Prop :=
  (repository.driver db).1 = None.

(** The constraints of the schema on the rows of [users]. *)
Definition unique_usernames (t : gmap Z repository.Row) : Prop :=
  forall i j ri rj,
    t !! i = Some ri -> t !! j = Some rj ->
    repository.username ri = repository.username rj -> i = j.

Definition unique_emails (t : gmap Z repository.Row) : Prop :=
  forall i j ri rj,
    t !! i = Some ri -> t !! j = Some rj ->
    repository.email ri = repository.email rj -> i = j.

Definition valid_genders (t : gmap Z repository.Row) : Prop :=
  forall i r, t !! i = Some r -> IsValid (repository.gender r) = true.

Definition schema_ok (t : gmap Z repository.Row) : Prop :=
  unique_usernames t /\ unique_emails t /\ valid_genders t.


(** The row holding the columns of a user. *)
Definition row_of (u : model.User.t) : repository.Row :=
  {| repository.username := model.User.Username u;
     repository.email := model.User.Email u;
     repository.gender := model.User.Gender u;
     repository.password_hash := model.User.PasswordHash u;
     repository.created_at := model.User.CreatedAt u;
     repository.updated_at := model.User.UpdatedAt u |}.

(** The bytes of the URL alphabet of base64: [[A-Za-z0-9_-]]. *)
Definition url_class : list class_item :=
  [upper_AZ; lower_az; digit_09; CByte "-"; CByte "_"].

(** The row a registration stores for the request [req]. *)
Definition registered_row {U : Unicode} (req : model.UserCreateRequest.t)
    (hash : string) (now : Z) : repository.Row :=
  {| repository.username := model.UserCreateRequest.Username req;
     repository.email := model.UserCreateRequest.Email req;
     repository.gender :=
       model.ParseGender (model.UserCreateRequest.Gender req);
     repository.password_hash := hash;
     repository.created_at := now;
     repository.updated_at := now |}.

End spec.

(** * Sample collaborators and data *)

(** Stand-ins for the collaborators the program is parameterised by, and
    sample data; used to run the handlers on concrete inputs. *)

Module sample.

Definition unicode : Unicode := {| MapToLower := fun s => s |}.

(** A hasher that only tags the password; it is not a secure one. *)
Definition bcrypt : Bcrypt :=
  {| GenerateFromPassword := fun password _ entropy =>
       Ok (entropy +:+ "$" +:+ password);
     CompareHashAndPassword := fun hash password =>
       if String.eqb hash ("salt$" +:+ password) then None
       else Some "hashedPassword is not the hash of the given password" |}.

Definition alice_claims : auth.Claims :=
  {| auth.UserID := 1; auth.Username := "alice";
     auth.Email := "alice@example.com";
     auth.IssuedAt := 1000; auth.ExpiresAt := 2000 |}.

(** A verifier that knows one token. *)
Definition jwt : auth.JWT :=
  {| auth.GenerateToken := fun _ _ _ username _ => Ok ("token-" +:+ username);
     auth.ValidateToken := fun _ _ token =>
       if String.eqb token "token-alice" then Ok alice_claims
       else Err "token is malformed" |}.

(** A login request read from two headers instead of a JSON body. *)
Definition bind_login : Bindable action.UserLoginRequest.t :=
  {| ShouldBindJSON := fun ctx =>
       Ok (action.UserLoginRequest.Build
             (gin.GetHeader "X-Email" ctx) (gin.GetHeader "X-Password" ctx)) |}.

Definition alice_row : repository.Row :=
  {| repository.username := "alice";
     repository.email := "alice@example.com";
     repository.gender := "female";
     repository.password_hash := "salt$Right1Password";
     repository.created_at := 10;
     repository.updated_at := 20 |}.

Definition empty_db : repository.DB :=
  {| repository.users := ∅; repository.faults := [] |}.

Definition alice_db : repository.DB :=
  {| repository.users := {[ 1 := alice_row ]}; repository.faults := [] |}.

Definition login_ctx : gin.Context :=
  gin.Build {[ "X-Email" := "alice@example.com";
               "X-Password" := "Wrong1Password" ]} "" ∅ [] (-1).

(** An update request that carries a gender only, read from a header. *)
Definition bind_gender_update : Bindable model.UserUpdateRequest.t :=
  {| ShouldBindJSON := fun ctx =>
       Ok (model.UserUpdateRequest.Build None None
             (Some (gin.GetHeader "X-Gender" ctx)) None) |}.

Definition update_ctx : gin.Context :=
  gin.Build {[ "X-Gender" := "MALE" ]} "" {[ "user_id" := gin.AInt 1 ]} [] 0.

Definition bearer_ctx (header : string) : gin.Context :=
  gin.Build {[ "Authorization" := header ]} "" ∅ [] (-1).

Definition bare_ctx : gin.Context := gin.Build ∅ "" ∅ [] (-1).

Definition manager : auth.JWTManager := auth.NewJWTManager "secret" 3600.

(** A create request read from headers. *)
Definition bind_create : Bindable model.UserCreateRequest.t :=
  {| ShouldBindJSON := fun ctx =>
       Ok (model.UserCreateRequest.Build
             (gin.GetHeader "X-Username" ctx) (gin.GetHeader "X-Email" ctx)
             (gin.GetHeader "X-Gender" ctx)
             (gin.GetHeader "X-Password" ctx)) |}.

Definition register_ctx : gin.Context :=
  gin.Build {[ "X-Username" := "bob_02"; "X-Email" := "bob@example.com";
               "X-Gender" := "MALE"; "X-Password" := "Secret9Pass" ]}
    "" ∅ [] (-1).

(** Verification requests read from headers. *)
Definition bind_send : Bindable action.EmailVerificationRequest.t :=
  {| ShouldBindJSON := fun ctx =>
       Ok (action.EmailVerificationRequest.Build
             (gin.GetHeader "X-Email" ctx)) |}.

Definition bind_confirm : Bindable action.EmailVerificationConfirmRequest.t :=
  {| ShouldBindJSON := fun ctx =>
       Ok (action.EmailVerificationConfirmRequest.Build
             (gin.GetHeader "X-Email" ctx) (gin.GetHeader "X-Code" ctx)) |}.

Definition confirm_ctx : gin.Context :=
  gin.Build {[ "X-Email" := "alice@example.com"; "X-Code" := "123456" ]}
    "" ∅ [] (-1).

Definition right_login_ctx : gin.Context :=
  gin.Build {[ "X-Email" := "alice@example.com";
               "X-Password" := "Right1Password" ]} "" ∅ [] (-1).


Definition taken_ctx : gin.Context :=
  gin.Build {[ "X-Username" := "alice"; "X-Email" := "alice2@example.com";
               "X-Password" := "Secret9Pass" ]} "" ∅ [] (-1).


Definition alice_request : model.UserCreateRequest.t :=
  model.UserCreateRequest.Build "alice_01" "alice@example.com" ""
    "Passw0rdX".

Definition alice_user (hash : string) : model.User.t :=
  model.User.Build 1 "alice" "alice@example.com" "female" hash 10 20.

End sample.

(** * Properties *)

(** ** The matcher decides the language of an expression *)

Module regexp_facts.

Import regexp spec.

Lemma Lang_none_inv (l : list ascii) : ~ Lang RNone l.
Proof. inversion 1. Qed.

Lemma Lang_eps_inv (l : list ascii) : Lang REps l -> l = [].
Proof. inversion 1; reflexivity. Qed.

Lemma Lang_class_inv (cls : list class_item) (l : list ascii) :
  Lang (RClass cls) l -> exists c, l = [c] /\ in_class cls c = true.
Proof. inversion 1; subst; eauto. Qed.

Lemma Lang_cat_inv (r1 r2 : regex) (l : list ascii) :
  Lang (RCat r1 r2) l ->
  exists l1 l2, l = l1 ++ l2 /\ Lang r1 l1 /\ Lang r2 l2.
Proof. inversion 1; subst; eauto. Qed.

Lemma Lang_alt_inv (r1 r2 : regex) (l : list ascii) :
  Lang (RAlt r1 r2) l -> Lang r1 l \/ Lang r2 l.
Proof. inversion 1; subst; auto. Qed.

Lemma nullable_Lang (r : regex) : nullable r = true <-> Lang r [].
Proof.
  induction r as [| |cls|r1 IH1 r2 IH2|r1 IH1 r2 IH2|r IH]; simpl.
  - split; [discriminate | intros H; destruct (Lang_none_inv _ H)].
  - split; [intros _; constructor | reflexivity].
  - split; [discriminate|].
    intros H. apply Lang_class_inv in H as (c & Hc & _). discriminate.
  - rewrite andb_true_iff, IH1, IH2. split.
    + intros [H1 H2]. apply (LCat _ _ [] []); assumption.
    + intros H. apply Lang_cat_inv in H as (l1 & l2 & Hl & H1 & H2).
      symmetry in Hl. apply app_eq_nil in Hl as [-> ->]. tauto.
  - rewrite orb_true_iff, IH1, IH2. split.
    + intros [H|H]; [apply LAltL | apply LAltR]; assumption.
    + apply Lang_alt_inv.
  - split; [intros _; constructor | reflexivity].
Qed.

(** A non-empty word of [r*] starts with a non-empty word of [r]. *)
Lemma Lang_star_cons (r : regex) (c : ascii) (l : list ascii) :
  Lang (RStar r) (c :: l) ->
  exists l1 l2, l = l1 ++ l2 /\ Lang r (c :: l1) /\ Lang (RStar r) l2.
Proof.
  intros H. remember (RStar r) as rs eqn:Hr. remember (c :: l) as w eqn:Hw.
  revert l Hw.
  induction H as [| | | | | |r' l1 l2 H1 _ H2 IH2]; intros w' Hw;
    try discriminate.
  injection Hr as ->. destruct l1 as [|c1 l1]; simpl in Hw.
  - apply IH2; [reflexivity | assumption].
  - injection Hw as -> <-. exists l1, l2. auto.
Qed.

Lemma deriv_Lang (r : regex) (c : ascii) (l : list ascii) :
  Lang (deriv c r) l <-> Lang r (c :: l).
Proof.
  revert l.
  induction r as [| |cls|r1 IH1 r2 IH2|r1 IH1 r2 IH2|r IH]; intros l; simpl.
  - split; intros H; destruct (Lang_none_inv _ H).
  - split; intros H; [destruct (Lang_none_inv _ H)|].
    apply Lang_eps_inv in H. discriminate.
  - destruct (in_class cls c) eqn:Hc; split; intros H.
    + apply Lang_eps_inv in H as ->. constructor; assumption.
    + apply Lang_class_inv in H as (c' & Hl & _).
      injection Hl as _ ->. constructor.
    + destruct (Lang_none_inv _ H).
    + apply Lang_class_inv in H as (c' & Hl & Hc').
      injection Hl as -> _. congruence.
  - assert (Hcat : Lang (RCat (deriv c r1) r2) l ->
                   Lang (RCat r1 r2) (c :: l)).
    { intros H. apply Lang_cat_inv in H as (l1 & l2 & -> & H1 & H2).
      apply (LCat _ _ (c :: l1) l2); [apply IH1|]; assumption. }
    destruct (nullable r1) eqn:Hn; split; intros H.
    + apply Lang_alt_inv in H as [H|H]; [auto|].
      apply (LCat _ _ [] (c :: l)); [apply nullable_Lang | apply IH2];
        assumption.
    + apply Lang_cat_inv in H as (l1 & l2 & Hl & H1 & H2).
      destruct l1 as [|c1 l1]; simpl in Hl.
      * subst l2. apply LAltR, IH2; assumption.
      * injection Hl as -> ->. apply LAltL, LCat; [apply IH1|]; assumption.
    + auto.
    + apply Lang_cat_inv in H as (l1 & l2 & Hl & H1 & H2).
      destruct l1 as [|c1 l1]; simpl in Hl.
      * apply nullable_Lang in H1. congruence.
      * injection Hl as -> ->. apply LCat; [apply IH1|]; assumption.
  - split; intros H; apply Lang_alt_inv in H as [H|H];
      solve [apply LAltL, IH1; assumption | apply LAltR, IH2; assumption].
  - split; intros H.
    + apply Lang_cat_inv in H as (l1 & l2 & -> & H1 & H2).
      apply (LStarApp _ (c :: l1) l2); [apply IH|]; assumption.
    + apply Lang_star_cons in H as (l1 & l2 & -> & H1 & H2).
      apply LCat; [apply IH|]; assumption.
Qed.

Lemma matches_Lang (r : regex) (l : list ascii) :
  matches r l = true <-> Lang r l.
Proof.
  revert r. induction l as [|c l IH]; intros r; simpl.
  - apply nullable_Lang.
  - rewrite IH. apply deriv_Lang.
Qed.

Lemma in_class_any (c : ascii) : in_class [CRange "000" "255"] c = true.
Proof. destruct c as [[] [] [] [] [] [] [] []]; reflexivity. Qed.

Lemma Lang_star_class (cls : list class_item) (l : list ascii) :
  Lang (RStar (RClass cls)) l <-> all_in cls l.
Proof.
  split.
  - intros H. remember (RStar (RClass cls)) as rs eqn:Hr.
    induction H as [| | | | | |r l1 l2 H1 _ H2 IH2]; try discriminate.
    + constructor.
    + injection Hr as ->.
      apply Lang_class_inv in H1 as (c & -> & Hc).
      constructor; [assumption | apply IH2; reflexivity].
  - induction 1 as [|c l Hc _ IH]; [constructor|].
    apply (LStarApp _ [c] l); [constructor|]; assumption.
Qed.

Lemma Lang_star_any (l : list ascii) : Lang (RStar RAny) l.
Proof.
  apply Lang_star_class. induction l; constructor;
    [apply in_class_any | assumption].
Qed.

Lemma Lang_plus_class (cls : list class_item) (l : list ascii) :
  Lang (RPlus (RClass cls)) l <-> l <> [] /\ all_in cls l.
Proof.
  unfold RPlus. split.
  - intros H. apply Lang_cat_inv in H as (l1 & l2 & -> & H1 & H2).
    apply Lang_class_inv in H1 as (c & -> & Hc).
    apply Lang_star_class in H2.
    split; [discriminate | constructor; assumption].
  - intros [Hne H]. destruct H as [|c l Hc H]; [congruence|].
    apply (LCat _ _ [c] l); [constructor; assumption|].
    apply Lang_star_class; assumption.
Qed.

Lemma Lang_atleast2_class (cls : list class_item) (l : list ascii) :
  Lang (RAtLeast2 (RClass cls)) l <-> (2 <= length l)%nat /\ all_in cls l.
Proof.
  unfold RAtLeast2. split.
  - intros H. apply Lang_cat_inv in H as (l1 & l' & -> & H1 & H).
    apply Lang_cat_inv in H as (l2 & l3 & -> & H2 & H3).
    apply Lang_class_inv in H1 as (c1 & -> & Hc1).
    apply Lang_class_inv in H2 as (c2 & -> & Hc2).
    apply Lang_star_class in H3. split; [simpl; lia|].
    repeat constructor; assumption.
  - intros [Hlen H].
    destruct H as [|c1 l Hc1 H]; [simpl in Hlen; lia|].
    destruct H as [|c2 l Hc2 H]; [simpl in Hlen; lia|].
    apply (LCat _ _ [c1] (c2 :: l)); [constructor; assumption|].
    apply (LCat _ _ [c2] l); [constructor; assumption|].
    apply Lang_star_class; assumption.
Qed.

Lemma Lang_byte (b : ascii) (l : list ascii) : Lang (RByte b) l <-> l = [b].
Proof.
  unfold RByte. split.
  - intros H. apply Lang_class_inv in H as (c & -> & Hc).
    unfold in_class in Hc. simpl in Hc. rewrite orb_false_r in Hc.
    apply Ascii.eqb_eq in Hc as ->. reflexivity.
  - intros ->. constructor. unfold in_class. simpl.
    rewrite Ascii.eqb_refl. reflexivity.
Qed.

(** A pattern anchored at both ends matches the whole string. *)
Lemma MatchString_anchored (r : regex) (s : string) :
  MatchString (MustCompile true r true) s = true <-> Lang r (bytes s).
Proof.
  unfold MatchString. simpl. rewrite matches_Lang. split.
  - intros H. apply Lang_cat_inv in H as (l1 & l' & Hl & H1 & H).
    apply Lang_cat_inv in H as (l2 & l3 & -> & H2 & H3).
    apply Lang_eps_inv in H1 as ->. apply Lang_eps_inv in H3 as ->.
    simpl in Hl. rewrite app_nil_r in Hl. rewrite Hl. assumption.
  - intros H. apply (LCat _ _ [] (bytes s)); [constructor|].
    rewrite <- (app_nil_r (bytes s)). apply LCat; [assumption | constructor].
Qed.

(** A one-class pattern without anchors looks for one byte of the class. *)
Lemma MatchString_contains (cls : list class_item) (s : string) :
  MatchString (MustCompile false (RClass cls) false) s = true <->
  Exists (fun c => in_class cls c = true) (bytes s).
Proof.
  unfold MatchString. simpl. rewrite matches_Lang. split.
  - intros H. apply Lang_cat_inv in H as (l1 & l' & -> & _ & H).
    apply Lang_cat_inv in H as (l2 & l3 & -> & H2 & _).
    apply Lang_class_inv in H2 as (c & -> & Hc).
    apply Exists_app. right. apply Exists_cons. left. assumption.
  - intros H. apply Exists_exists in H as (c & Hin & Hc).
    apply list_elem_of_split in Hin as (l1 & l2 & ->).
    apply LCat; [apply Lang_star_any|].
    apply (LCat _ _ [c] l2); [constructor; assumption | apply Lang_star_any].
Qed.

End regexp_facts.

(** ** The identity validator *)

Module model_facts.

Import regexp regexp_facts model spec.

Lemma domain_byte (c : ascii) :
  in_class email_domain_class c = true <->
  c = "."%char \/ in_class label_class c = true.
Proof.
  unfold in_class, email_domain_class, label_class.
  cbn [existsb in_item lower_az upper_AZ digit_09].
  destruct (Ascii.eqb_spec c "."); [subst; split; auto|].
  destruct (byte_between "a" "z" c), (byte_between "A" "Z" c),
    (byte_between "0" "9" c), (Ascii.eqb c "-"); simpl; intuition congruence.
Qed.

Lemma dot_labels_iff (d : list ascii) :
  dot_labels d <-> all_in email_domain_class d.
Proof.
  split.
  - intros (labels & -> & Hall).
    induction Hall as [|l ls Hl Hls IH]; [constructor|].
    assert (Hl' : all_in email_domain_class l).
    { eapply Forall_impl; [exact Hl|]. intros c Hc.
      apply domain_byte. auto. }
    destruct ls as [|l' ls']; [exact Hl'|].
    change (join_dot (l :: l' :: ls'))
      with (l ++ "."%char :: join_dot (l' :: ls')).
    apply Forall_app. split; [exact Hl'|].
    constructor; [reflexivity | exact IH].
  - induction 1 as [|c d Hc _ (labels & Hd & Hall)].
    + exists [[]]. split; [reflexivity | repeat constructor].
    + apply domain_byte in Hc as [->|Hc].
      * exists ([] :: match labels with [] => [[]] | _ => labels end).
        destruct labels as [|l ls]; simpl in *.
        -- subst d. split; [reflexivity | repeat constructor].
        -- split; [congruence | constructor; [constructor | assumption]].
      * destruct labels as [|l ls].
        -- exists [[c]]. simpl in Hd. subst d.
           split; [reflexivity | repeat constructor; assumption].
        -- exists ((c :: l) :: ls). split.
           ++ simpl in *. destruct ls; rewrite Hd; reflexivity.
           ++ apply Forall_cons in Hall as [Hl Hls].
              constructor; [constructor|]; assumption.
Qed.

Lemma emailRegex_spec (s : string) :
  MatchString emailRegex s = true <-> spec_email_pattern s.
Proof.
  unfold emailRegex. rewrite MatchString_anchored. unfold spec_email_pattern.
  split.
  - intros H.
    apply Lang_cat_inv in H as (local & l1 & Hs & Hlocal & H).
    apply Lang_cat_inv in H as (at_ & l2 & -> & Hat & H).
    apply Lang_cat_inv in H as (domain & l3 & -> & Hdom & H).
    apply Lang_cat_inv in H as (dot & tld & -> & Hdot & Htld).
    apply Lang_byte in Hat as ->. apply Lang_byte in Hdot as ->.
    apply Lang_plus_class in Hlocal as [? ?].
    apply Lang_plus_class in Hdom as [? ?].
    apply Lang_atleast2_class in Htld as [? ?].
    exists local, domain, tld. rewrite dot_labels_iff. auto 10.
  - intros (local & domain & tld & -> & ? & ? & ? & Hd & ? & ?).
    apply dot_labels_iff in Hd.
    apply LCat; [apply Lang_plus_class; auto|].
    apply (LCat _ _ ["@"%char]); [apply Lang_byte; reflexivity|].
    apply LCat; [apply Lang_plus_class; auto|].
    apply (LCat _ _ ["."%char]); [apply Lang_byte; reflexivity|].
    apply Lang_atleast2_class; auto.
Qed.

Lemma validateEmail_ok (s : string) :
  spec_email_pattern s -> len s <= 100 -> validateEmail s = None.
Proof.
  intros Hp Hlen. unfold validateEmail, EmailMaxLength.
  destruct (Z.gtb_spec (len s) 100); [lia|].
  apply emailRegex_spec in Hp. rewrite Hp. reflexivity.
Qed.

Lemma usernameRegex_spec (s : string) :
  MatchString usernameRegex s = true <->
  bytes s <> [] /\ all_in username_class (bytes s).
Proof.
  unfold usernameRegex. rewrite MatchString_anchored. apply Lang_plus_class.
Qed.

Lemma len_bytes (s : string) : len s = Z.of_nat (length (bytes s)).
Proof.
  unfold len, bytes. f_equal.
  induction s as [|c s IH]; simpl; [reflexivity | rewrite IH; reflexivity].
Qed.

Lemma IsValid_ParseGender {U : Unicode} (s : string) :
  IsValid (ParseGender s) = true.
Proof.
  unfold ParseGender.
  destruct (String.eqb (strings.ToLower s) "male"); [reflexivity|].
  destruct (String.eqb (strings.ToLower s) "female"); reflexivity.
Qed.

(** No gender string is rejected: the parsed value is always a member
    of the enumeration. *)
Lemma validateGender_nil {U : Unicode} (s : string) : validateGender s = None.
Proof.
  unfold validateGender. destruct (String.eqb s ""); [reflexivity|].
  rewrite IsValid_ParseGender. reflexivity.
Qed.

(** C2. [ParseGender] is total onto the enumeration: its result is
    [male] exactly when the lowered input is "male", [female] exactly
    when it is "female", and [unknown] for every other input, the empty
    string included; the result always satisfies [IsValid]. *)
Theorem ParseGender_closed_enum {U : Unicode} (s : string) :
  (ParseGender s = GenderMale \/ ParseGender s = GenderFemale \/
   ParseGender s = GenderUnknown) /\
  IsValid (ParseGender s) = true /\
  (ParseGender s = GenderMale <-> strings.ToLower s = "male") /\
  (ParseGender s = GenderFemale <-> strings.ToLower s = "female") /\
  (ParseGender s = GenderUnknown <->
   strings.ToLower s <> "male" /\ strings.ToLower s <> "female") /\
  ParseGender "" = GenderUnknown /\
  ParseGender "MALE" = GenderMale /\
  ParseGender "Female" = GenderFemale.
Proof.
  split; [|split; [apply IsValid_ParseGender|]].
  - unfold ParseGender.
    destruct (String.eqb (strings.ToLower s) "male"); [auto|].
    destruct (String.eqb (strings.ToLower s) "female"); auto.
  - unfold ParseGender.
    destruct (String.eqb_spec (strings.ToLower s) "male") as [Hm|Hm].
    { rewrite Hm. repeat split; try reflexivity; try discriminate.
      intros [Hne _]. congruence. }
    destruct (String.eqb_spec (strings.ToLower s) "female") as [Hf|Hf].
    { rewrite Hf. repeat split; try reflexivity; try discriminate.
      intros [_ Hne]. congruence. }
    repeat split; try reflexivity; try discriminate; try congruence.
Qed.

(** C1 (the code at the failing input).  "other" is not empty and its
    lowered form is none of the three names, yet [validateGender]
    accepts it. *)
Theorem validateGender_accepts_unrecognized {U : Unicode} :
  strings.ToLower "other" = "other" /\
  "other" <> "male" /\ "other" <> "female" /\ "other" <> "unknown" /\
  validateGender "other" = None.
Proof. repeat split; try discriminate; reflexivity. Qed.

(** C6. [validateEmail] fails with "email is too long" exactly for a
    string of more than 100 bytes; for a shorter one it fails with
    "invalid email format" exactly when the string does not have the
    shape [local-part@domain.tld]; it succeeds in the remaining case. *)
Theorem validateEmail_spec (s : string) :
  (validateEmail s = Some "email is too long" <-> len s > 100) /\
  (validateEmail s = Some "invalid email format" <->
   len s <= 100 /\ ~ spec_email_pattern s) /\
  (validateEmail s = None <-> len s <= 100 /\ spec_email_pattern s).
Proof.
  unfold validateEmail, EmailMaxLength.
  destruct (Z.gtb_spec (len s) 100) as [Hlen|Hlen].
  { repeat split; try discriminate; try lia; intros [? _]; lia. }
  pose proof (emailRegex_spec s) as Hre.
  destruct (MatchString emailRegex s); simpl.
  - assert (Hp : spec_email_pattern s) by (apply Hre; reflexivity).
    repeat split; try discriminate; try lia; try assumption.
    intros [_ Hn]. contradiction.
  - assert (Hp : ~ spec_email_pattern s).
    { intros Hp. apply Hre in Hp. discriminate. }
    repeat split; try discriminate; try lia; try assumption.
    intros [_ Hy]. contradiction.
Qed.

(** C7. The create validator returns the first failure among the checks
    of username, email, gender and password, in this order.  The update
    validator does the same over the checks of the fields that are
    present, and accepts a request without any field. *)
Theorem Validate_first_failure {U : Unicode} :
  (forall ucr : UserCreateRequest.t,
     UserCreateRequest.Validate ucr =
     first_failure
       [("username", validateUsername (UserCreateRequest.Username ucr));
        ("email", validateEmail (UserCreateRequest.Email ucr));
        ("gender", validateGender (UserCreateRequest.Gender ucr));
        ("password", validatePassword (UserCreateRequest.Password ucr))]) /\
  (forall uur : UserUpdateRequest.t,
     UserUpdateRequest.Validate uur =
     first_failure
       (present "username" (UserUpdateRequest.Username uur) validateUsername ++
        present "email" (UserUpdateRequest.Email uur) validateEmail ++
        present "gender" (UserUpdateRequest.Gender uur) validateGender ++
        present "password" (UserUpdateRequest.Password uur) validatePassword)) /\
  UserUpdateRequest.Validate (UserUpdateRequest.Build None None None None)
  = None.
Proof.
  split; [|split; [|reflexivity]].
  - intros [u e g p]. unfold UserCreateRequest.Validate. simpl.
    destruct (validateUsername u); [reflexivity|].
    destruct (validateEmail e); [reflexivity|].
    destruct (validateGender g); [reflexivity|].
    destruct (validatePassword p); reflexivity.
  - intros [u e g p].
    unfold UserUpdateRequest.Validate, UserUpdateRequest.check_present.
    simpl.
    destruct u as [u|]; simpl;
      [destruct (validateUsername u); [reflexivity|]|];
      (destruct e as [e|]; simpl;
       [destruct (validateEmail e); [reflexivity|]|]);
      (destruct g as [g|]; simpl;
       [destruct (validateGender g); [reflexivity|]|]);
      (destruct p as [p|]; simpl;
       [destruct (validatePassword p); reflexivity | reflexivity]).
Qed.

Lemma validateUsername_ok (s : string) :
  3 <= len s <= 50 -> all_in username_class (bytes s) ->
  validateUsername s = None.
Proof.
  intros Hlen Hall. unfold validateUsername, UsernameMinLength,
    UsernameMaxLength.
  destruct (Z.ltb_spec (len s) 3); [lia|].
  destruct (Z.gtb_spec (len s) 50); [lia|].
  assert (Hm : MatchString usernameRegex s = true).
  { apply usernameRegex_spec. split; [|assumption].
    rewrite len_bytes in Hlen. destruct (bytes s); [simpl in Hlen; lia|].
    discriminate. }
  rewrite Hm. reflexivity.
Qed.

Lemma validatePassword_ok (s : string) :
  8 <= len s ->
  Exists (fun c => in_class [upper_AZ] c = true) (bytes s) ->
  Exists (fun c => in_class [lower_az] c = true) (bytes s) ->
  Exists (fun c => in_class [digit_09] c = true) (bytes s) ->
  validatePassword s = None.
Proof.
  intros Hlen Hu Hl Hd. unfold validatePassword, PasswordMinLength.
  destruct (Z.ltb_spec (len s) 8); [lia|].
  apply MatchString_contains in Hu, Hl, Hd. rewrite Hu, Hl, Hd. reflexivity.
Qed.

(** C8. A create request is accepted when its username has 3 to 50
    bytes, all in [[A-Za-z0-9_-]], its email has the specified shape and
    at most 100 bytes, its password has at least 8 bytes with an upper
    case letter, a lower case letter and a digit, and its gender is
    empty or one of the three names in any case. *)
Theorem Validate_accepts_valid {U : Unicode} (ucr : UserCreateRequest.t) :
  3 <= len (UserCreateRequest.Username ucr) <= 50 ->
  all_in username_class (bytes (UserCreateRequest.Username ucr)) ->
  spec_email_pattern (UserCreateRequest.Email ucr) ->
  len (UserCreateRequest.Email ucr) <= 100 ->
  8 <= len (UserCreateRequest.Password ucr) ->
  Exists (fun c => in_class [upper_AZ] c = true)
    (bytes (UserCreateRequest.Password ucr)) ->
  Exists (fun c => in_class [lower_az] c = true)
    (bytes (UserCreateRequest.Password ucr)) ->
  Exists (fun c => in_class [digit_09] c = true)
    (bytes (UserCreateRequest.Password ucr)) ->
  (UserCreateRequest.Gender ucr = "" \/
   In (strings.ToLower (UserCreateRequest.Gender ucr))
     ["male"; "female"; "unknown"]) ->
  UserCreateRequest.Validate ucr = None.
Proof.
  intros Hu1 Hu2 He1 He2 Hp1 Hp2 Hp3 Hp4 _.
  unfold UserCreateRequest.Validate.
  rewrite validateUsername_ok by assumption.
  assert (He : validateEmail (UserCreateRequest.Email ucr) = None).
  { apply validateEmail_ok; assumption. }
  rewrite He, validateGender_nil, validatePassword_ok by assumption.
  reflexivity.
Qed.

Lemma Validate_accepts_valid_witness :
  UserCreateRequest.Validate (U := sample.unicode) sample.alice_request = None.
Proof.
  apply (Validate_accepts_valid (U := sample.unicode) sample.alice_request).
  - vm_compute. split; discriminate.
  - repeat constructor.
  - exists (bytes "alice"), (bytes "example"), (bytes "com").
    split; [reflexivity|]. split; [discriminate|].
    split; [repeat constructor|]. split; [discriminate|].
    split; [exists [bytes "example"]; split;
            [reflexivity | repeat constructor]|].
    split; [simpl; lia | repeat constructor].
  - vm_compute. discriminate.
  - vm_compute. discriminate.
  - apply Exists_cons. left. reflexivity.
  - apply Exists_cons. right. apply Exists_cons. left. reflexivity.
  - do 5 (apply Exists_cons; right). apply Exists_cons. left. reflexivity.
  - left. reflexivity.
Defined.

(** C9. Two users that differ at most in [PasswordHash] have the same
    response value and the same JSON, through [ToResponse] and through
    the marshalling of the [User] itself. *)
Theorem ToResponse_hides_PasswordHash (u1 u2 : User.t) :
  User.ID u1 = User.ID u2 ->
  User.Username u1 = User.Username u2 ->
  User.Email u1 = User.Email u2 ->
  User.Gender u1 = User.Gender u2 ->
  User.CreatedAt u1 = User.CreatedAt u2 ->
  User.UpdatedAt u1 = User.UpdatedAt u2 ->
  User.ToResponse u1 = User.ToResponse u2 /\
  UserResponse.Marshal (User.ToResponse u1) =
  UserResponse.Marshal (User.ToResponse u2) /\
  User.Marshal u1 = User.Marshal u2.
Proof.
  intros Hid Hname Hemail Hgender Hc Hu.
  unfold User.ToResponse, User.Marshal, UserResponse.Marshal. simpl.
  rewrite Hid, Hname, Hemail, Hgender, Hc, Hu. auto.
Qed.

Lemma ToResponse_hides_PasswordHash_witness :
  User.ToResponse (sample.alice_user "salt$Right1Password") =
  User.ToResponse (sample.alice_user "salt$Other2Password") /\
  UserResponse.Marshal
    (User.ToResponse (sample.alice_user "salt$Right1Password")) =
  UserResponse.Marshal
    (User.ToResponse (sample.alice_user "salt$Other2Password")) /\
  User.Marshal (sample.alice_user "salt$Right1Password") =
  User.Marshal (sample.alice_user "salt$Other2Password").
Proof.
  apply (ToResponse_hides_PasswordHash
           (sample.alice_user "salt$Right1Password")
           (sample.alice_user "salt$Other2Password")); reflexivity.
Defined.

End model_facts.

(** ** The authentication gate *)

Module auth_facts.

Import gin auth spec.

Lemma of_bytes_app (l1 l2 : list ascii) :
  of_bytes (l1 ++ l2) = of_bytes l1 +:+ of_bytes l2.
Proof.
  unfold of_bytes. induction l1 as [|c l1 IH]; simpl; [reflexivity|].
  rewrite IH. reflexivity.
Qed.

Lemma of_bytes_bytes (s : string) : of_bytes (bytes s) = s.
Proof. apply string_of_list_ascii_of_string. Qed.

Lemma IndexByte_Some (l : list ascii) (sep : ascii) (m : nat) :
  strings.IndexByte l sep = Some m ->
  l = take m l ++ sep :: drop (S m) l.
Proof.
  revert m. induction l as [|c l IH]; intros m; simpl; [discriminate|].
  destruct (Ascii.eqb_spec c sep) as [->|Hne].
  - intros [= <-]. reflexivity.
  - destruct (strings.IndexByte l sep) as [k|]; simpl; [|discriminate].
    intros [= <-]. simpl. f_equal. apply IH. reflexivity.
Qed.

(** Two parts come from a cut at a separator. *)
Lemma SplitN2_two (s a b : string) (sep : ascii) :
  strings.SplitN2 s sep = [a; b] -> s = a +:+ String sep b.
Proof.
  unfold strings.SplitN2.
  destruct (strings.IndexByte (bytes s) sep) as [m|] eqn:Hi; [|discriminate].
  intros [= <- <-]. apply IndexByte_Some in Hi.
  rewrite <- (of_bytes_bytes s) at 1. rewrite Hi at 1.
  rewrite of_bytes_app. reflexivity.
Qed.

Lemma SplitN2_Bearer (value : string) :
  strings.SplitN2 ("Bearer " +:+ value) " " = ["Bearer"; value].
Proof.
  unfold strings.SplitN2.
  change (bytes ("Bearer " +:+ value))
    with (bytes "Bearer" ++ " "%char :: bytes value).
  change (strings.IndexByte (bytes "Bearer" ++ " "%char :: bytes value) " ")
    with (Some 6%nat).
  cbv iota beta.
  change (take 6 (bytes "Bearer" ++ " "%char :: bytes value))
    with (bytes "Bearer").
  change (drop 7 (bytes "Bearer" ++ " "%char :: bytes value))
    with (bytes value).
  rewrite !of_bytes_bytes. reflexivity.
Qed.

Lemma unauthorized_facts (msg : string) (c : Context) :
  IsAborted (unauthorized msg c) = true /\
  Keys (unauthorized msg c) = Keys c /\
  Written (unauthorized msg c) =
  Written c ++ [(401, JObject [("error", JString msg)])].
Proof. repeat split. Qed.

Lemma attach_facts (claims : Claims) (c : Context) :
  GetUserID (attach claims c) = (UserID claims, true) /\
  GetUsername (attach claims c) = (Username claims, true) /\
  GetEmail (attach claims c) = (Email claims, true) /\
  Written (attach claims c) = Written c /\
  index (attach claims c) = index c.
Proof.
  unfold GetUserID, GetUsername, GetEmail, Get, attach, Set_. simpl.
  rewrite lookup_insert_eq.
  rewrite (lookup_insert_ne _ "email" "username") by discriminate.
  rewrite lookup_insert_eq.
  rewrite (lookup_insert_ne _ "email" "user_id") by discriminate.
  rewrite (lookup_insert_ne _ "username" "user_id") by discriminate.
  rewrite lookup_insert_eq.
  repeat split.
Qed.

(** C5. Every run of the gate ends in exactly one of four ways, decided
    by the Authorization header [h]: [h] empty (or absent), the refusal
    "header is required"; [h] not of the shape [Bearer <value>], the
    refusal "invalid format"; the value refused by the verifier, the
    refusal "invalid or expired"; the value verified, the rest of the
    chain run on the context with the identity attached.  A refusal is
    a 401 answer on an aborted chain, the key bag is left as it was and
    the rest of the chain is not run. *)
Theorem AuthMiddleware_gate {J : JWT} (jwtManager : JWTManager) (now : Z)
    (next : Context -> Context) (c : Context) :
  ((GetHeader "Authorization" c = "" /\
    AuthMiddleware jwtManager now next c =
    unauthorized "Authorization header is required" c) \/
   (GetHeader "Authorization" c <> "" /\
    ~ bearer_shape (GetHeader "Authorization" c) /\
    AuthMiddleware jwtManager now next c =
    unauthorized "Invalid authorization header format" c) \/
   (exists token e,
      GetHeader "Authorization" c = "Bearer " +:+ token /\
      ValidateToken jwtManager now token = Err e /\
      AuthMiddleware jwtManager now next c =
      unauthorized "Invalid or expired token" c) \/
   (exists token claims,
      GetHeader "Authorization" c = "Bearer " +:+ token /\
      ValidateToken jwtManager now token = Ok claims /\
      AuthMiddleware jwtManager now next c = next (attach claims c) /\
      GetUserID (attach claims c) = (UserID claims, true) /\
      GetUsername (attach claims c) = (Username claims, true) /\
      GetEmail (attach claims c) = (Email claims, true))) /\
  (Header c !! "Authorization" = None ->
   GetHeader "Authorization" c = "") /\
  (forall msg,
     IsAborted (unauthorized msg c) = true /\
     Keys (unauthorized msg c) = Keys c /\
     Written (unauthorized msg c) =
     Written c ++ [(StatusUnauthorized, H [("error", JString msg)])]).
Proof.
  split; [|split; [|intros msg; apply unauthorized_facts]].
  2: { unfold GetHeader. intros ->. reflexivity. }
  unfold AuthMiddleware. fold (attach).
  destruct (String.eqb_spec (GetHeader "Authorization" c) "") as [He|He].
  { left. split; [assumption | reflexivity]. }
  right.
  assert (Hshape : forall token,
            GetHeader "Authorization" c = "Bearer " +:+ token ->
            strings.SplitN2 (GetHeader "Authorization" c) " "
            = ["Bearer"; token]).
  { intros token ->. apply SplitN2_Bearer. }
  destruct (strings.SplitN2 (GetHeader "Authorization" c) " ")
    as [|scheme [|token [|extra rest]]] eqn:Hsplit.
  - left. repeat split; [assumption|]. intros [v Hv].
    apply Hshape in Hv. discriminate.
  - left. repeat split; [assumption|]. intros [v Hv].
    apply Hshape in Hv. discriminate.
  - destruct (String.eqb_spec scheme "Bearer") as [->|Hs]; simpl.
    + right. apply SplitN2_two in Hsplit.
      change ("Bearer" +:+ String " " token) with ("Bearer " +:+ token)
        in Hsplit.
      destruct (ValidateToken jwtManager now token) as [claims|e] eqn:Hv.
      * right. exists token, claims.
        destruct (attach_facts claims c) as (? & ? & ? & _).
        repeat split; assumption.
      * left. exists token, e. repeat split; assumption.
    + left. repeat split; [assumption|]. intros [v Hv].
      apply Hshape in Hv. congruence.
  - left. repeat split; [assumption|]. intros [v Hv].
    apply Hshape in Hv. discriminate.
Qed.

End auth_facts.

(** ** The handlers *)

Module action_facts.

Import gin repository action spec.

Lemma driver_users (db : DB) : users (driver db).2 = users db.
Proof. unfold driver. destruct (faults db); reflexivity. Qed.

Lemma find_all_false {A} (f : A -> bool) (l : list A) :
  (forall x, x ∈ l -> f x = false) -> List.find f l = None.
Proof.
  induction l as [|x l IH]; intros Hall; simpl; [reflexivity|].
  rewrite (Hall x) by constructor.
  apply IH. intros y Hy. apply Hall. constructor. assumption.
Qed.

Lemma QueryRow_None (p : Row -> bool) (db db0 : DB) :
  users db0 = users db ->
  (forall id r, users db !! id = Some r -> p r = false) ->
  QueryRow p db0 = None.
Proof.
  intros Hu Hall. unfold QueryRow. rewrite Hu. apply find_all_false.
  intros [id r] Hin. apply elem_of_map_to_list in Hin. simpl. eauto.
Qed.

(** A lookup by an address that no row carries fails, whatever the
    driver does. *)
Lemma GetByEmail_absent (addr : string) (db : DB) :
  (forall id r, users db !! id = Some r -> email r <> addr) ->
  exists err, (GetByEmail addr db).1 = Err err.
Proof.
  intros Hnone. unfold GetByEmail.
  pose proof (driver_users db) as Hu.
  destruct (driver db) as [[e|] db0]; simpl in *; [eauto|].
  rewrite (QueryRow_None _ db db0); [eauto | assumption |].
  intros id r Hr. apply String.eqb_neq. eauto.
Qed.

(** C4. For one and the same login request, a database without a user
    of that email and a database whose user of that email has another
    password give the same answer: 401 with the one generic message. *)
Theorem ActionLogin_generic_failure
    {Bd : Bindable UserLoginRequest.t} {B : Bcrypt} {J : auth.JWT}
    (now : Z) (ctx : Context) (req : UserLoginRequest.t)
    (db1 db2 : DB) (user : model.User.t) :
  ShouldBindJSON ctx = Ok req ->
  (forall id r, users db1 !! id = Some r ->
                email r <> UserLoginRequest.Email req) ->
  (GetByEmail (UserLoginRequest.Email req) db2).1 = Ok user ->
  auth.CheckPassword (UserLoginRequest.Password req)
    (model.User.PasswordHash user) <> None ->
  (ActionLogin now ctx db1).1 = invalid_credential ctx /\
  (ActionLogin now ctx db2).1 = invalid_credential ctx /\
  (ActionLogin now ctx db1).1 = (ActionLogin now ctx db2).1.
Proof.
  intros Hbind Hnone Hfound Hpw.
  assert (Hrun1 : (ActionLogin now ctx db1).1 = invalid_credential ctx).
  { unfold ActionLogin. rewrite Hbind.
    destruct (GetByEmail_absent _ _ Hnone) as [err Herr].
    destruct (GetByEmail (UserLoginRequest.Email req) db1) as [res db1'].
    simpl in Herr. subst res. reflexivity. }
  assert (Hrun2 : (ActionLogin now ctx db2).1 = invalid_credential ctx).
  { unfold ActionLogin. rewrite Hbind.
    destruct (GetByEmail (UserLoginRequest.Email req) db2) as [res db2'].
    simpl in Hfound. subst res.
    destruct (auth.CheckPassword (UserLoginRequest.Password req)
                (model.User.PasswordHash user)); [reflexivity|].
    congruence. }
  rewrite Hrun1, Hrun2. auto.
Qed.

Lemma ActionLogin_generic_failure_witness :
  (ActionLogin (Bd := sample.bind_login) (B := sample.bcrypt)
     (J := sample.jwt) 1000 sample.login_ctx sample.empty_db).1
  = invalid_credential sample.login_ctx /\
  (ActionLogin (Bd := sample.bind_login) (B := sample.bcrypt)
     (J := sample.jwt) 1000 sample.login_ctx sample.alice_db).1
  = invalid_credential sample.login_ctx /\
  (ActionLogin (Bd := sample.bind_login) (B := sample.bcrypt)
     (J := sample.jwt) 1000 sample.login_ctx sample.empty_db).1
  = (ActionLogin (Bd := sample.bind_login) (B := sample.bcrypt)
       (J := sample.jwt) 1000 sample.login_ctx sample.alice_db).1.
Proof.
  apply (ActionLogin_generic_failure (Bd := sample.bind_login)
           (B := sample.bcrypt) (J := sample.jwt) 1000 sample.login_ctx
           (UserLoginRequest.Build "alice@example.com" "Wrong1Password")
           sample.empty_db sample.alice_db
           (sample.alice_user "salt$Right1Password")).
  - reflexivity.
  - intros id r Hr. simpl in Hr. rewrite lookup_empty in Hr. discriminate.
  - vm_compute. reflexivity.
  - vm_compute. discriminate.
Defined.

Lemma GetByID_spec (id : Z) (db : DB) :
  users (GetByID id db).2 = users db /\
  forall u, (GetByID id db).1 = Ok u ->
            exists r, users db !! id = Some r /\ u = scan id r.
Proof.
  unfold GetByID. pose proof (driver_users db) as Hu.
  destruct (driver db) as [[e|] db0]; simpl in *.
  - split; [assumption | discriminate].
  - rewrite Hu. destruct (users db !! id) as [r|]; simpl;
      (split; [assumption|]); [|discriminate].
    intros u [= <-]. eauto.
Qed.

Lemma update_username_spec (req : model.UserUpdateRequest.t)
    (user : model.User.t) (ctx : Context) (db : DB) :
  block_ok db user (update_username req user ctx db)
    (fun user' =>
       user' = model.User.set_Username (model.User.Username user') user /\
       match model.UserUpdateRequest.Username req with
       | None => model.User.Username user' = model.User.Username user
       | Some name => model.User.Username user' = name
       end).
Proof.
  unfold update_username, block_ok.
  destruct (model.UserUpdateRequest.Username req) as [name|].
  - destruct (String.eqb_spec name (model.User.Username user)) as [->|Hne];
      simpl.
    + destruct user; auto.
    + unfold ExistsByUsername. pose proof (driver_users db) as Hu.
      destruct (driver db) as [[e|] db0]; simpl in *; [assumption|].
      destruct (Count _ db0 >? 0); [assumption|].
      destruct user; auto.
  - destruct user; auto.
Qed.

Lemma update_email_spec (req : model.UserUpdateRequest.t)
    (user : model.User.t) (ctx : Context) (db : DB) :
  block_ok db user (update_email req user ctx db)
    (fun user' =>
       user' = model.User.set_Email (model.User.Email user') user /\
       match model.UserUpdateRequest.Email req with
       | None => model.User.Email user' = model.User.Email user
       | Some addr => model.User.Email user' = addr
       end).
Proof.
  unfold update_email, block_ok.
  destruct (model.UserUpdateRequest.Email req) as [addr|].
  - destruct (String.eqb_spec addr (model.User.Email user)) as [->|Hne];
      simpl.
    + destruct user; auto.
    + unfold ExistsByEmail. pose proof (driver_users db) as Hu.
      destruct (driver db) as [[e|] db0]; simpl in *; [assumption|].
      destruct (Count _ db0 >? 0); [assumption|].
      destruct user; auto.
  - destruct user; auto.
Qed.

Lemma update_gender_spec {U : Unicode} (req : model.UserUpdateRequest.t)
    (user : model.User.t) :
  update_gender req user
  = model.User.set_Gender (model.User.Gender (update_gender req user)) user /\
  match model.UserUpdateRequest.Gender req with
  | None => model.User.Gender (update_gender req user) = model.User.Gender user
  | Some g => model.User.Gender (update_gender req user) = model.ParseGender g
  end.
Proof.
  unfold update_gender.
  destruct (model.UserUpdateRequest.Gender req); destruct user; auto.
Qed.

Lemma update_password_spec {B : Bcrypt} (req : model.UserUpdateRequest.t)
    (entropy : string) (user : model.User.t) (ctx : Context) (db : DB) :
  block_ok db user (update_password req entropy user ctx db)
    (fun user' =>
       user' = model.User.set_PasswordHash (model.User.PasswordHash user')
                 user /\
       match model.UserUpdateRequest.Password req with
       | None => model.User.PasswordHash user' = model.User.PasswordHash user
       | Some password =>
           auth.HashPassword password entropy
           = Ok (model.User.PasswordHash user')
       end).
Proof.
  unfold update_password, block_ok.
  destruct (model.UserUpdateRequest.Password req) as [password|].
  - destruct (auth.HashPassword password entropy) as [h|e]; simpl;
      [|reflexivity].
    destruct user; auto.
  - destruct user; auto.
Qed.

(** The statement of [Update] leaves the table alone or rewrites the
    row of the user's id, keeping [created_at]. *)
Lemma Update_spec (user : model.User.t) (now : Z) (db : DB) :
  let '(err, _, db') := Update user now db in
  users db' = users db \/
  exists r,
    users db !! model.User.ID user = Some r /\
    users db' =
    <[model.User.ID user :=
        {| username := model.User.Username user;
           email := model.User.Email user;
           gender := model.User.Gender user;
           password_hash := model.User.PasswordHash user;
           created_at := created_at r;
           updated_at := now |}]> (users db).
Proof.
  unfold Update. pose proof (driver_users db) as Hu.
  destruct (driver db) as [[e|] db0]; simpl in *; [auto|].
  rewrite Hu. destruct (users db !! model.User.ID user) as [r|]; [|auto].
  right. exists r. simpl. auto.
Qed.

(** C10. A profile update either leaves the users table as it was, or
    rewrites the one row of the authenticated id.  In the rewritten row
    [created_at] is kept and every column among username, email, gender
    and password hash whose request field is absent is kept; a column
    whose field is present takes the requested value. *)
Theorem ActionUpdateProfile_frame
    {Bd : Bindable model.UserUpdateRequest.t} {U : Unicode} {B : Bcrypt}
    (entropy : string) (now1 now2 : Z) (ctx : Context) (db : DB) :
  users (ActionUpdateProfile entropy now1 now2 ctx db).2 = users db \/
  exists req uid r r',
    ShouldBindJSON ctx = Ok req /\
    auth.GetUserID ctx = (uid, true) /\
    users db !! uid = Some r /\
    users (ActionUpdateProfile entropy now1 now2 ctx db).2
    = <[uid := r']> (users db) /\
    created_at r' = created_at r /\
    updated_at r' = now2 /\
    match model.UserUpdateRequest.Username req with
    | None => username r' = username r
    | Some name => username r' = name
    end /\
    match model.UserUpdateRequest.Email req with
    | None => email r' = email r
    | Some addr => email r' = addr
    end /\
    match model.UserUpdateRequest.Gender req with
    | None => gender r' = gender r
    | Some g => gender r' = model.ParseGender g
    end /\
    match model.UserUpdateRequest.Password req with
    | None => password_hash r' = password_hash r
    | Some password =>
        auth.HashPassword password entropy = Ok (password_hash r')
    end.
Proof.
  unfold ActionUpdateProfile.
  destruct (auth.GetUserID ctx) as [uid [|]] eqn:Hid; simpl; [|auto].
  destruct (ShouldBindJSON ctx) as [req|e] eqn:Hbind; [|auto].
  destruct (model.UserUpdateRequest.Validate req); [auto|].
  destruct (GetByID_spec uid db) as [Hu0 Hget].
  destruct (GetByID uid db) as [[user|e] db0]; simpl in *; [|auto].
  destruct (Hget user eq_refl) as (r & Hr & ->). clear Hget.
  pose proof (update_username_spec req (scan uid r) ctx db0) as Hb1.
  destruct (update_username req (scan uid r) ctx db0) as [c1 d1|u1 d1];
    simpl in Hb1; [left; simpl; congruence|].
  destruct Hb1 as (Hu1 & Hs1 & Hn1).
  pose proof (update_email_spec req u1 ctx d1) as Hb2.
  destruct (update_email req u1 ctx d1) as [c2 d2|u2 d2];
    simpl in Hb2; [left; simpl; congruence|].
  destruct Hb2 as (Hu2 & Hs2 & Hn2).
  pose proof (update_password_spec req entropy (update_gender req u2) ctx d2)
    as Hb3.
  destruct (update_password req entropy (update_gender req u2) ctx d2)
    as [c3 d3|u3 d3]; simpl in Hb3; [left; simpl; congruence|].
  destruct Hb3 as (Hu3 & Hs3 & Hn3).
  pose proof (Update_spec (model.User.BeforeUpdate now1 u3) now2 d3) as Hupd.
  destruct (Update (model.User.BeforeUpdate now1 u3) now2 d3)
    as [[err u4] d4].
  assert (Hd3 : users d3 = users db) by congruence.
  assert (Hout :
            (match err with
             | Some err0 =>
                 (JSON StatusInternalServerError
                    (H [("error", JString "Failed to update user");
                        ("details", JString err0)]) ctx, d4)
             | None =>
                 (JSON StatusOK
                    (H [("message", JString "Profile updated successfully");
                        ("data",
                         model.UserResponse.Marshal
                           (model.User.ToResponse u4))]) ctx, d4)
             end).2 = d4) by (destruct err; reflexivity).
  rewrite Hout. clear Hout.
  destruct Hupd as [Hsame|(r0 & Hr0 & Hnew)]; [left; congruence|].
  right. simpl in Hr0, Hnew. rewrite Hd3 in Hr0, Hnew.
  destruct (update_gender_spec req u2) as (Hsg & Hng).
  assert (HID : model.User.ID u3 = uid).
  { rewrite Hs3. simpl. rewrite Hsg. simpl.
    rewrite Hs2. simpl. rewrite Hs1. reflexivity. }
  assert (Hname : model.User.Username u3 = model.User.Username u1).
  { rewrite Hs3. simpl. rewrite Hsg. simpl. rewrite Hs2. reflexivity. }
  assert (Hemail : model.User.Email u3 = model.User.Email u2).
  { rewrite Hs3. simpl. rewrite Hsg. reflexivity. }
  assert (Hgender : model.User.Gender u3
                    = model.User.Gender (update_gender req u2)).
  { rewrite Hs3. reflexivity. }
  assert (He1 : model.User.Email u1 = email r).
  { rewrite Hs1. reflexivity. }
  assert (Hg2 : model.User.Gender u2 = gender r).
  { rewrite Hs2. simpl. rewrite Hs1. reflexivity. }
  assert (Hp2 : model.User.PasswordHash (update_gender req u2)
                = password_hash r).
  { rewrite Hsg. simpl. rewrite Hs2. simpl. rewrite Hs1. reflexivity. }
  rewrite HID in Hr0, Hnew. rewrite Hr in Hr0. injection Hr0 as <-.
  eexists req, uid, r, _. split; [reflexivity|]. split; [reflexivity|].
  split; [assumption|]. split; [exact Hnew|]. simpl.
  split; [reflexivity|]. split; [reflexivity|].
  rewrite Hname, Hemail, Hgender.
  split; [destruct (model.UserUpdateRequest.Username req); exact Hn1|].
  split.
  { destruct (model.UserUpdateRequest.Email req); [exact Hn2|].
    rewrite Hn2. exact He1. }
  split.
  { destruct (model.UserUpdateRequest.Gender req); [exact Hng|].
    rewrite Hng. exact Hg2. }
  destruct (model.UserUpdateRequest.Password req); [exact Hn3|].
  rewrite Hn3. exact Hp2.
Qed.

End action_facts.

(** ** The scenarios of the specification, run on the model *)

Module scenarios.

Import model gin auth repository action spec.

Example username_too_short :
  validateUsername "ab" = Some "username is too short".
Proof. reflexivity. Qed.

Example email_without_at :
  validateEmail "not-an-email" = Some "invalid email format".
Proof. reflexivity. Qed.

Example email_of_101_bytes :
  validateEmail (of_bytes (repeat "a"%char 95 ++ bytes "@b.com"))
  = Some "email is too long".
Proof. reflexivity. Qed.

Example email_with_empty_label :
  validateEmail "a@b..co" = None.
Proof. reflexivity. Qed.

Example email_trailing_newline :
  validateEmail (String.append "a@b.co" (String "010" ""))
  = Some "invalid email format".
Proof. reflexivity. Qed.

Example password_without_upper :
  validatePassword "alllowercase1" =
  Some "password must contain at least one uppercase letter, one lowercase letter, and one number".
Proof. reflexivity. Qed.

Example empty_gender_is_unknown :
  validateGender (U := sample.unicode) "" = None /\
  ParseGender (U := sample.unicode) "" = GenderUnknown.
Proof. split; reflexivity. Qed.

Example gate_without_header :
  AuthMiddleware (J := sample.jwt) sample.manager 0 (fun c => c)
    sample.bare_ctx
  = unauthorized "Authorization header is required" sample.bare_ctx.
Proof. reflexivity. Qed.

Example gate_with_other_scheme :
  Written
    (AuthMiddleware (J := sample.jwt) sample.manager 0 (fun c => c)
       (sample.bearer_ctx "Basic abc"))
  = [(401, H [("error", JString "Invalid authorization header format")])].
Proof. vm_compute. reflexivity. Qed.

Example gate_with_unknown_token :
  Written
    (AuthMiddleware (J := sample.jwt) sample.manager 0 (fun c => c)
       (sample.bearer_ctx "Bearer abc"))
  = [(401, H [("error", JString "Invalid or expired token")])].
Proof. vm_compute. reflexivity. Qed.

Example gate_with_good_token :
  let c := AuthMiddleware (J := sample.jwt) sample.manager 0 (fun c => c)
             (sample.bearer_ctx "Bearer token-alice") in
  GetUserID c = (1, true) /\ GetUsername c = ("alice", true) /\
  GetEmail c = ("alice@example.com", true) /\
  Written c = [] /\ IsAborted c = false.
Proof. vm_compute. repeat split. Qed.

Example login_with_wrong_password :
  Written
    (ActionLogin (Bd := sample.bind_login) (B := sample.bcrypt)
       (J := sample.jwt) 1000 sample.login_ctx sample.alice_db).1
  = [(401, H [("error", JString "Invalid email or password")])].
Proof. vm_compute. reflexivity. Qed.

Example update_of_gender_only :
  users
    (ActionUpdateProfile (Bd := sample.bind_gender_update)
       (U := sample.unicode) (B := sample.bcrypt) "salt" 30 31
       sample.update_ctx sample.alice_db).2 !! 1
  = Some {| username := "alice"; email := "alice@example.com";
            gender := "male"; password_hash := "salt$Right1Password";
            created_at := 10; updated_at := 31 |}.
Proof. vm_compute. reflexivity. Qed.

End scenarios.

(** ** More on the identity validator *)

Module validator_facts.

Import regexp regexp_facts model spec model_facts.

(** X1. [validateUsername] fails with "too short" exactly below 3
    bytes, with "too long" exactly above 50 bytes, with the character
    message exactly for a string of 3 to 50 bytes with a byte outside
    [[A-Za-z0-9_-]], and accepts exactly the remaining strings. *)
Theorem validateUsername_spec (s : string) :
  (validateUsername s = Some "username is too short" <-> len s < 3) /\
  (validateUsername s = Some "username is too long" <-> len s > 50) /\
  (validateUsername s =
   Some "username can only contain alphanumeric characters, underscores, and hyphens"
   <-> 3 <= len s <= 50 /\ ~ all_in username_class (bytes s)) /\
  (validateUsername s = None <->
   3 <= len s <= 50 /\ all_in username_class (bytes s)).
Proof.
  unfold validateUsername, UsernameMinLength, UsernameMaxLength.
  destruct (Z.ltb_spec (len s) 3) as [Hlt|Hge].
  { repeat split; try discriminate; try lia; intros [? _]; lia. }
  destruct (Z.gtb_spec (len s) 50) as [Hgt|Hle].
  { repeat split; try discriminate; try lia; intros [? _]; lia. }
  pose proof (usernameRegex_spec s) as Hre.
  assert (Hne : bytes s <> []).
  { rewrite len_bytes in Hge. destruct (bytes s); [simpl in Hge; lia|].
    discriminate. }
  destruct (MatchString usernameRegex s); simpl.
  - assert (Hall : all_in username_class (bytes s)) by (apply Hre; reflexivity).
    repeat split; try discriminate; try lia; try assumption.
    intros [_ Hn]. contradiction.
  - assert (Hall : ~ all_in username_class (bytes s)).
    { intros Hall. assert (Habs : false = true) by (apply Hre; auto).
      discriminate. }
    repeat split; try discriminate; try lia; try assumption.
    intros [_ Hy]. contradiction.
Qed.

(** X2. [validatePassword] fails with "too short" exactly below 8
    bytes; from 8 bytes on it fails with the complexity message exactly
    when an upper case letter, a lower case letter or a digit is
    missing, and accepts otherwise, whatever the other bytes are. *)
Theorem validatePassword_spec (s : string) :
  (validatePassword s = Some "password is too short" <-> len s < 8) /\
  (validatePassword s =
   Some "password must contain at least one uppercase letter, one lowercase letter, and one number"
   <-> 8 <= len s /\
       ~ (Exists (fun c => in_class [upper_AZ] c = true) (bytes s) /\
          Exists (fun c => in_class [lower_az] c = true) (bytes s) /\
          Exists (fun c => in_class [digit_09] c = true) (bytes s))) /\
  (validatePassword s = None <->
   8 <= len s /\
   Exists (fun c => in_class [upper_AZ] c = true) (bytes s) /\
   Exists (fun c => in_class [lower_az] c = true) (bytes s) /\
   Exists (fun c => in_class [digit_09] c = true) (bytes s)).
Proof.
  unfold validatePassword, PasswordMinLength.
  destruct (Z.ltb_spec (len s) 8) as [Hlt|Hge].
  { repeat split; try discriminate; try lia; intros [? _]; lia. }
  pose proof (MatchString_contains [upper_AZ] s) as Hu.
  pose proof (MatchString_contains [lower_az] s) as Hl.
  pose proof (MatchString_contains [digit_09] s) as Hd.
  set (bu := MatchString (MustCompile false (RClass [upper_AZ]) false) s) in *.
  set (bl := MatchString (MustCompile false (RClass [lower_az]) false) s) in *.
  set (bd := MatchString (MustCompile false (RClass [digit_09]) false) s) in *.
  assert (Hall : negb bu || negb bl || negb bd = false <->
                 Exists (fun c => in_class [upper_AZ] c = true) (bytes s) /\
                 Exists (fun c => in_class [lower_az] c = true) (bytes s) /\
                 Exists (fun c => in_class [digit_09] c = true) (bytes s)).
  { rewrite <- Hu, <- Hl, <- Hd. destruct bu, bl, bd; simpl; intuition congruence. }
  destruct (negb bu || negb bl || negb bd).
  - assert (Hn : ~ (Exists (fun c => in_class [upper_AZ] c = true) (bytes s) /\
                    Exists (fun c => in_class [lower_az] c = true) (bytes s) /\
                    Exists (fun c => in_class [digit_09] c = true) (bytes s))).
    { intros Hy. apply Hall in Hy. discriminate. }
    repeat split; try discriminate; try lia; try assumption.
    intros [_ Hy]. contradiction.
  - assert (Hy : Exists (fun c => in_class [upper_AZ] c = true) (bytes s) /\
                 Exists (fun c => in_class [lower_az] c = true) (bytes s) /\
                 Exists (fun c => in_class [digit_09] c = true) (bytes s))
      by (apply Hall; reflexivity).
    split; [split; [discriminate | lia]|].
    split; [split; [discriminate | intros [_ Hn]; contradiction]|].
    split; [intros _; split; [lia | exact Hy] | reflexivity].
Qed.

Lemma validateUsername_None_inv (s : string) :
  validateUsername s = None ->
  3 <= len s <= 50 /\ all_in username_class (bytes s).
Proof.
  unfold validateUsername, UsernameMinLength, UsernameMaxLength.
  destruct (Z.ltb_spec (len s) 3); [discriminate|].
  destruct (Z.gtb_spec (len s) 50); [discriminate|].
  destruct (MatchString usernameRegex s) eqn:Hm; [|discriminate].
  intros _. apply usernameRegex_spec in Hm as [_ Hall]. split; [lia|assumption].
Qed.

Lemma validateEmail_None_inv (s : string) :
  validateEmail s = None -> len s <= 100 /\ spec_email_pattern s.
Proof.
  unfold validateEmail, EmailMaxLength.
  destruct (Z.gtb_spec (len s) 100); [discriminate|].
  destruct (MatchString emailRegex s) eqn:Hm; [|discriminate].
  intros _. apply emailRegex_spec in Hm. split; [lia|assumption].
Qed.

Lemma Validate_None_inv {U : Unicode} (ucr : UserCreateRequest.t) :
  UserCreateRequest.Validate ucr = None ->
  validateUsername (UserCreateRequest.Username ucr) = None /\
  validateEmail (UserCreateRequest.Email ucr) = None /\
  validatePassword (UserCreateRequest.Password ucr) = None.
Proof.
  unfold UserCreateRequest.Validate.
  destruct (validateUsername _); [discriminate|].
  destruct (validateEmail _); [discriminate|].
  destruct (validateGender _); [discriminate|].
  destruct (validatePassword _); [discriminate|]. auto.
Qed.

Lemma class_byte_ascii (c : ascii) :
  in_class email_local_class c = true \/
  in_class email_domain_class c = true \/
  in_class username_class c = true \/
  in_class letter_class c = true ->
  (byte_val c <? 128) = true.
Proof.
  destruct c as [[] [] [] [] [] [] [] []]; vm_compute;
    intuition congruence.
Qed.

Lemma all_in_ascii (cls : list class_item) (l : list ascii) :
  (forall c, in_class cls c = true -> (byte_val c <? 128) = true) ->
  all_in cls l -> forallb (fun c => byte_val c <? 128) l = true.
Proof.
  intros Hcls. induction 1 as [|c l Hc _ IH]; simpl; [reflexivity|].
  rewrite (Hcls c Hc), IH. reflexivity.
Qed.

Lemma email_pattern_ascii (s : string) :
  spec_email_pattern s -> strings.isASCII s = true.
Proof.
  intros (local & domain & tld & Hs & _ & Hl & _ & Hd & _ & Ht).
  apply dot_labels_iff in Hd. unfold strings.isASCII. rewrite Hs.
  rewrite forallb_app. simpl. rewrite forallb_app. simpl.
  rewrite (all_in_ascii email_local_class), (all_in_ascii email_domain_class),
    (all_in_ascii letter_class); auto using class_byte_ascii.
Qed.

(** X3. A create request accepted by [Validate] fits the columns of the
    table: its username has 3 to 50 bytes and its email at most 100,
    and both are plain ASCII, so a byte is a character; its password
    has at least 8 bytes. *)
Theorem Validate_fits_schema {U : Unicode} (ucr : UserCreateRequest.t) :
  UserCreateRequest.Validate ucr = None ->
  3 <= len (UserCreateRequest.Username ucr) <= 50 /\
  strings.isASCII (UserCreateRequest.Username ucr) = true /\
  1 <= len (UserCreateRequest.Email ucr) <= 100 /\
  strings.isASCII (UserCreateRequest.Email ucr) = true /\
  8 <= len (UserCreateRequest.Password ucr).
Proof.
  intros Hv. apply Validate_None_inv in Hv as (Hu & He & Hp).
  apply validateUsername_None_inv in Hu as [Hulen Huall].
  apply validateEmail_None_inv in He as [Helen Hepat].
  split; [assumption|]. split.
  { apply all_in_ascii with (cls := username_class); [|assumption].
    auto using class_byte_ascii. }
  split.
  { split; [|assumption]. destruct Hepat as (l & d & t & Hs & _).
    rewrite len_bytes, Hs. rewrite length_app. simpl. lia. }
  split; [apply email_pattern_ascii; assumption|].
  unfold validatePassword, PasswordMinLength in Hp.
  destruct (Z.ltb_spec (len (UserCreateRequest.Password ucr)) 8);
    [discriminate | lia].
Qed.

Lemma Validate_fits_schema_witness :
  3 <= len (UserCreateRequest.Username sample.alice_request) <= 50 /\
  strings.isASCII (UserCreateRequest.Username sample.alice_request) = true /\
  1 <= len (UserCreateRequest.Email sample.alice_request) <= 100 /\
  strings.isASCII (UserCreateRequest.Email sample.alice_request) = true /\
  8 <= len (UserCreateRequest.Password sample.alice_request).
Proof.
  apply (Validate_fits_schema (U := sample.unicode) sample.alice_request).
  reflexivity.
Defined.

End validator_facts.

(** ** The repository *)

Module repository_facts.

Import repository spec action_facts.

Lemma ready_driver (db : DB) :
  ready db -> exists db0, driver db = (None, db0) /\ users db0 = users db.
Proof.
  unfold ready. pose proof (driver_users db) as Hu.
  destruct (driver db) as [f db0]. simpl in *. intros ->. eauto.
Qed.

Lemma GetByID_ready (id : Z) (db : DB) :
  ready db ->
  (GetByID id db).1 =
  match users db !! id with
  | Some r => Ok (scan id r)
  | None => Err ("user with ID " +:+ itoa id +:+ " not found")
  end.
Proof.
  intros (db0 & Hd & Hu)%ready_driver. unfold GetByID. rewrite Hd, Hu.
  destruct (users db !! id); reflexivity.
Qed.

Lemma scan_row_of (u : model.User.t) : scan (model.User.ID u) (row_of u) = u.
Proof. destruct u; reflexivity. Qed.

Lemma Create_inv (user : model.User.t) (serial : Z) (db : DB)
    (user' : model.User.t) (db' : DB) :
  Create user serial db = (None, user', db') ->
  user' = model.User.set_ID serial user /\
  users db !! serial = None /\
  users db' = <[serial := row_of user]> (users db) /\
  faults db' = faults (driver db).2.
Proof.
  unfold Create. pose proof (driver_users db) as Hu.
  destruct (driver db) as [[e|] db0]; simpl in *; [discriminate|].
  rewrite Hu. destruct (users db !! serial) eqn:Hs; [discriminate|].
  intros [= <- <-]. simpl. auto.
Qed.



Lemma Create_keeps_rows_aux (user : model.User.t) (serial : Z) (db : DB) :
  ((Create user serial db).1.1 <> None ->
   users (Create user serial db).2 = users db) /\
  ((Create user serial db).1.1 = None ->
   users db !! serial = None).
Proof.
  unfold Create. pose proof (driver_users db) as Hu.
  destruct (driver db) as [[e|] db0]; simpl in *.
  { split; [auto | discriminate]. }
  rewrite Hu. destruct (users db !! serial) eqn:Hs; simpl.
  { split; [auto | discriminate]. }
  split; [congruence | auto].
Qed.

(** X5. [Create] never touches a row that is already there: every
    stored row is kept as it is, a failed insert leaves the table as it
    was, and a successful one adds exactly one row under a key that was
    free. *)
Theorem Create_keeps_rows (user : model.User.t) (serial : Z) (db : DB) :
  (forall id r,
     users db !! id = Some r ->
     users (Create user serial db).2 !! id = Some r) /\
  ((Create user serial db).1.1 <> None ->
   users (Create user serial db).2 = users db) /\
  ((Create user serial db).1.1 = None ->
   users db !! serial = None /\
   users (Create user serial db).2 = <[serial := row_of user]> (users db) /\
   size (users (Create user serial db).2) = S (size (users db))).
Proof.
  unfold Create. pose proof (driver_users db) as Hu.
  destruct (driver db) as [[e|] db0]; simpl in *.
  { rewrite Hu. repeat split; auto; discriminate. }
  rewrite Hu. destruct (users db !! serial) eqn:Hs; simpl.
  { rewrite Hu. repeat split; auto; discriminate. }
  split; [|split; [congruence|]].
  - intros id r Hr. rewrite lookup_insert_ne; [assumption|congruence].
  - intros _. repeat split. apply map_size_insert_None. assumption.
Qed.

(** X6. Deleting the user that [Create] has just inserted gives back
    the table from before the insert. *)
Theorem Create_then_Delete (user : model.User.t) (serial : Z) (db : DB)
    (user' : model.User.t) (db1 : DB) :
  Create user serial db = (None, user', db1) ->
  ready db1 ->
  (Delete (model.User.ID user') db1).1 = None /\
  users (Delete (model.User.ID user') db1).2 = users db.
Proof.
  intros (-> & Hfree & Hu & _)%Create_inv (db0 & Hd & Hu0)%ready_driver.
  unfold Delete. rewrite Hd, Hu0, Hu. simpl.
  rewrite lookup_insert_eq. simpl.
  split; [reflexivity|]. apply delete_insert_id. assumption.
Qed.

Lemma Create_then_Delete_witness :
  (Delete (model.User.ID (model.User.set_ID 2 (sample.alice_user "h")))
     {| users := <[2 := row_of (sample.alice_user "h")]>
                   (users sample.alice_db);
        faults := [] |}).1 = None /\
  users
    (Delete (model.User.ID (model.User.set_ID 2 (sample.alice_user "h")))
       {| users := <[2 := row_of (sample.alice_user "h")]>
                     (users sample.alice_db);
          faults := [] |}).2 = users sample.alice_db.
Proof.
  apply (Create_then_Delete (sample.alice_user "h") 2 sample.alice_db).
  - reflexivity.
  - reflexivity.
Defined.

(** X7. After a successful [Delete] the id is gone for good: a lookup
    of it fails and so does a second delete, whatever the driver does,
    and no other row has changed. *)
Theorem Delete_removes (id : Z) (db db' : DB) :
  Delete id db = (None, db') ->
  (exists msg, (GetByID id db').1 = Err msg) /\
  (Delete id db').1 <> None /\
  (forall j, j <> id -> users db' !! j = users db !! j).
Proof.
  unfold Delete at 1. pose proof (driver_users db) as Hu.
  destruct (driver db) as [[e|] db0]; simpl in *; [discriminate|].
  destruct (users db0 !! id) eqn:Hs; [|discriminate].
  intros [= <-].
  set (db' := {| users := delete id (users db0); faults := faults db0 |}).
  assert (Hgone : forall d, users d = users db' -> users d !! id = None).
  { intros d ->. apply lookup_delete_eq. }
  pose proof (driver_users db') as Hu1.
  split; [|split].
  - unfold GetByID.
    destruct (driver db') as [[e|] d1]; simpl in *; [eauto|].
    rewrite (Hgone d1 Hu1). eauto.
  - unfold Delete.
    destruct (driver db') as [[e|] d1]; simpl in *; [discriminate|].
    rewrite (Hgone d1 Hu1). discriminate.
  - intros j Hj. simpl. rewrite Hu. apply lookup_delete_ne. congruence.
Qed.

Lemma Delete_removes_witness :
  (exists msg, (GetByID 1 sample.empty_db).1 = Err msg) /\
  (Delete 1 sample.empty_db).1 <> None /\
  (forall j, j <> 1 ->
             users sample.empty_db !! j = users sample.alice_db !! j).
Proof.
  apply (Delete_removes 1 sample.alice_db sample.empty_db).
  vm_compute. reflexivity.
Defined.

(** X8. On a stored user, [UpdatePassword] has the effect on the table
    of a full [Update] of that user with only the hash replaced: the
    row keeps every column but [password_hash] and [updated_at]. *)
Theorem UpdatePassword_as_Update (id : Z) (hash : string) (now : Z)
    (db : DB) (r : Row) :
  users db !! id = Some r ->
  ready db ->
  (UpdatePassword id hash now db).1 = None /\
  users (UpdatePassword id hash now db).2 =
  users (Update (model.User.set_PasswordHash hash (scan id r)) now db).2 /\
  users (UpdatePassword id hash now db).2 =
  <[id := {| username := username r; email := email r; gender := gender r;
             password_hash := hash; created_at := created_at r;
             updated_at := now |}]> (users db).
Proof.
  intros Hr (db0 & Hd & Hu)%ready_driver.
  unfold UpdatePassword, Update. simpl. rewrite Hd, Hu, Hr. simpl.
  auto.
Qed.

Lemma UpdatePassword_as_Update_witness :
  (UpdatePassword 1 "salt$New3Password" 40 sample.alice_db).1 = None /\
  users (UpdatePassword 1 "salt$New3Password" 40 sample.alice_db).2 =
  users (Update (model.User.set_PasswordHash "salt$New3Password"
                   (scan 1 sample.alice_row)) 40 sample.alice_db).2 /\
  users (UpdatePassword 1 "salt$New3Password" 40 sample.alice_db).2 =
  <[1 := {| username := username sample.alice_row;
            email := email sample.alice_row;
            gender := gender sample.alice_row;
            password_hash := "salt$New3Password";
            created_at := created_at sample.alice_row;
            updated_at := 40 |}]> (users sample.alice_db).
Proof.
  apply (UpdatePassword_as_Update 1 "salt$New3Password" 40 sample.alice_db
           sample.alice_row).
  - reflexivity.
  - reflexivity.
Defined.

Global Instance created_desc_total : Total created_desc.
Proof. intros a b. unfold created_desc. lia. Qed.

Global Instance created_desc_trans : Transitive created_desc.
Proof. intros a b c. unfold created_desc. lia. Qed.

Lemma List_inv (db : DB) (l : list model.User.t) :
  (List db).1 = Ok l ->
  l = map (fun ir => scan ir.1 ir.2)
        (merge_sort created_desc (map_to_list (users db))).
Proof.
  unfold List. pose proof (driver_users db) as Hu.
  destruct (driver db) as [[e|] db0]; simpl in *; [discriminate|].
  destruct (driver db0) as [[e|] db1]; simpl; [discriminate|].
  intros [= <-]. rewrite Hu. reflexivity.
Qed.



Lemma Count_size (db : DB) :
  Count (fun _ => true) db = Z.of_nat (size (users db)).
Proof.
  unfold Count. f_equal. rewrite <- length_map_to_list.
  induction (map_to_list (users db)) as [|x l IH]; simpl; [reflexivity|].
  rewrite IH. reflexivity.
Qed.

(** X10. The count of [GetTotalCount] is the number of users a [List]
    run right after it returns. *)
Theorem GetTotalCount_matches_List (db : DB) (n : Z)
    (l : list model.User.t) :
  (GetTotalCount db).1 = Ok n ->
  (List (GetTotalCount db).2).1 = Ok l ->
  n = Z.of_nat (length l).
Proof.
  unfold GetTotalCount. pose proof (driver_users db) as Hu.
  destruct (driver db) as [[e|] db0]; simpl in *; [discriminate|].
  intros [= <-] ->%List_inv.
  rewrite Count_size, length_map.
  rewrite merge_sort_Permutation, length_map_to_list. reflexivity.
Qed.

Lemma GetTotalCount_matches_List_witness :
  1 = Z.of_nat (length [sample.alice_user "salt$Right1Password"]).
Proof.
  apply (GetTotalCount_matches_List sample.alice_db).
  - vm_compute. reflexivity.
  - vm_compute. reflexivity.
Defined.

Lemma row_of_scan (id : Z) (r : Row) : row_of (scan id r) = r.
Proof. destruct r; reflexivity. Qed.

Lemma QueryRow_Some (p : Row -> bool) (db : DB) (id : Z) (r : Row) :
  QueryRow p db = Some (id, r) -> users db !! id = Some r /\ p r = true.
Proof.
  unfold QueryRow. intros [Hin Hp]%find_some. simpl in Hp.
  apply list_elem_of_In, elem_of_map_to_list in Hin. auto.
Qed.

Lemma Count_pos (p : Row -> bool) (db : DB) :
  (Count p db >? 0) = true <-> exists ir, QueryRow p db = Some ir.
Proof.
  unfold Count, QueryRow.
  induction (map_to_list (users db)) as [|x l IH]; simpl.
  - split; [discriminate | intros [? ?]; discriminate].
  - destruct (p x.2); simpl; [|exact IH].
    split; [eauto | intros _; apply Z.gtb_lt; lia].
Qed.

(** X11. With a working driver, the existence checks agree with the
    lookups: [ExistsByEmail] answers true exactly when [GetByEmail]
    finds a user, and [ExistsByUsername] exactly when [GetByUsername]
    does. *)
Theorem Exists_agrees_with_Get (addr name : string) (db : DB) :
  ready db ->
  ((ExistsByEmail addr db).1 = Ok true <->
   exists u, (GetByEmail addr db).1 = Ok u) /\
  ((ExistsByUsername name db).1 = Ok true <->
   exists u, (GetByUsername name db).1 = Ok u).
Proof.
  intros (db0 & Hd & Hu)%ready_driver.
  unfold ExistsByEmail, GetByEmail, ExistsByUsername, GetByUsername.
  rewrite Hd. simpl. split.
  - pose proof (Count_pos (fun r => String.eqb (email r) addr) db0) as Hc.
    destruct (QueryRow (fun r => String.eqb (email r) addr) db0)
      as [[id r]|]; simpl.
    + split; [eauto|]. intros _. f_equal. apply Hc. eauto.
    + split; [|intros [? ?]; discriminate].
      intros [= Hpos]. apply Hc in Hpos as [? ?]. discriminate.
  - pose proof (Count_pos (fun r => String.eqb (username r) name) db0) as Hc.
    destruct (QueryRow (fun r => String.eqb (username r) name) db0)
      as [[id r]|]; simpl.
    + split; [eauto|]. intros _. f_equal. apply Hc. eauto.
    + split; [|intros [? ?]; discriminate].
      intros [= Hpos]. apply Hc in Hpos as [? ?]. discriminate.
Qed.

Lemma Exists_agrees_with_Get_witness :
  ((ExistsByEmail "alice@example.com" sample.alice_db).1 = Ok true <->
   exists u, (GetByEmail "alice@example.com" sample.alice_db).1 = Ok u) /\
  ((ExistsByUsername "bob" sample.alice_db).1 = Ok true <->
   exists u, (GetByUsername "bob" sample.alice_db).1 = Ok u).
Proof.
  apply (Exists_agrees_with_Get "alice@example.com" "bob" sample.alice_db).
  reflexivity.
Defined.

Lemma Get_returns_stored_aux (addr : string) (db : DB) (u : model.User.t) :
  (GetByEmail addr db).1 = Ok u ->
  email (row_of u) = addr /\ users db !! model.User.ID u = Some (row_of u).
Proof.
  unfold GetByEmail. pose proof (driver_users db) as Hu.
  destruct (driver db) as [[e|] db0]; simpl in *; [discriminate|].
  destruct (QueryRow _ db0) as [[i r]|] eqn:Hq; simpl; [|discriminate].
  intros [= <-]. apply QueryRow_Some in Hq as [Hr Hp].
  apply String.eqb_eq in Hp. simpl. rewrite row_of_scan.
  split; [assumption | congruence].
Qed.

(** X12. What a lookup returns is a stored row, read under its own id,
    that carries the key asked for: the id for [GetByID], the address
    for [GetByEmail], the name for [GetByUsername]. *)
Theorem Get_returns_stored (id : Z) (addr name : string) (db : DB) :
  (forall u, (GetByID id db).1 = Ok u ->
             model.User.ID u = id /\
             users db !! model.User.ID u = Some (row_of u)) /\
  (forall u, (GetByEmail addr db).1 = Ok u ->
             model.User.Email u = addr /\
             users db !! model.User.ID u = Some (row_of u)) /\
  (forall u, (GetByUsername name db).1 = Ok u ->
             model.User.Username u = name /\
             users db !! model.User.ID u = Some (row_of u)).
Proof.
  split; [|split]; intros u.
  - intros Hget. destruct (GetByID_spec id db) as [_ Hspec].
    destruct (Hspec u Hget) as (r & Hr & ->). simpl.
    rewrite row_of_scan. auto.
  - unfold GetByEmail. pose proof (driver_users db) as Hu.
    destruct (driver db) as [[e|] db0]; simpl in *; [discriminate|].
    destruct (QueryRow _ db0) as [[i r]|] eqn:Hq; simpl; [|discriminate].
    intros [= <-]. apply QueryRow_Some in Hq as [Hr Hp].
    apply String.eqb_eq in Hp. simpl. rewrite row_of_scan.
    split; [assumption | congruence].
  - unfold GetByUsername. pose proof (driver_users db) as Hu.
    destruct (driver db) as [[e|] db0]; simpl in *; [discriminate|].
    destruct (QueryRow _ db0) as [[i r]|] eqn:Hq; simpl; [|discriminate].
    intros [= <-]. apply QueryRow_Some in Hq as [Hr Hp].
    apply String.eqb_eq in Hp. simpl. rewrite row_of_scan.
    split; [assumption | congruence].
Qed.

End repository_facts.

(** ** Registration *)

Module register_facts.

Import gin repository action spec action_facts repository_facts.

Lemma Count_zero (p : Row -> bool) (db : DB) :
  (Count p db >? 0) = false ->
  forall i r, users db !! i = Some r -> p r = false.
Proof.
  intros Hc i r Hr.
  destruct (QueryRow p db) as [ir|] eqn:Hq.
  - assert (Hpos : (Count p db >? 0) = true) by (apply Count_pos; eauto).
    congruence.
  - unfold QueryRow in Hq.
    apply (find_none _ _ Hq (i, r)).
    apply list_elem_of_In, elem_of_map_to_list. exact Hr.
Qed.

Lemma ExistsByUsername_false (name : string) (db db' : DB) :
  ExistsByUsername name db = (Ok false, db') ->
  users db' = users db /\
  forall i r, users db !! i = Some r -> username r <> name.
Proof.
  unfold ExistsByUsername. pose proof (driver_users db) as Hu.
  destruct (driver db) as [[e|] db0]; simpl in *; [discriminate|].
  intros [= Hc <-]. split; [assumption|]. intros i r Hr.
  rewrite <- Hu in Hr. apply String.eqb_neq.
  exact (Count_zero _ _ Hc i r Hr).
Qed.

Lemma ExistsByEmail_false (addr : string) (db db' : DB) :
  ExistsByEmail addr db = (Ok false, db') ->
  users db' = users db /\
  forall i r, users db !! i = Some r -> email r <> addr.
Proof.
  unfold ExistsByEmail. pose proof (driver_users db) as Hu.
  destruct (driver db) as [[e|] db0]; simpl in *; [discriminate|].
  intros [= Hc <-]. split; [assumption|]. intros i r Hr.
  rewrite <- Hu in Hr. apply String.eqb_neq.
  exact (Count_zero _ _ Hc i r Hr).
Qed.

Lemma ExistsByUsername_users (name : string) (db : DB) :
  users (ExistsByUsername name db).2 = users db.
Proof.
  unfold ExistsByUsername. pose proof (driver_users db) as Hu.
  destruct (driver db) as [[e|] db0]; assumption.
Qed.

Lemma ExistsByEmail_users (addr : string) (db : DB) :
  users (ExistsByEmail addr db).2 = users db.
Proof.
  unfold ExistsByEmail. pose proof (driver_users db) as Hu.
  destruct (driver db) as [[e|] db0]; assumption.
Qed.

(** Every run of the registration handler writes one answer; the table
    changes exactly when the answer is 201. *)
Lemma ActionCreateUser_run
    {Bd : Bindable model.UserCreateRequest.t} {U : Unicode} {B : Bcrypt}
    (entropy : string) (now serial : Z) (ctx : Context) (db : DB) :
  exists code body,
    Written (ActionCreateUser entropy now serial ctx db).1
    = Written ctx ++ [(code, body)] /\
    ((code <> StatusCreated /\
      users (ActionCreateUser entropy now serial ctx db).2 = users db) \/
     (code = StatusCreated /\
      exists req hash,
        ShouldBindJSON ctx = Ok req /\
        model.UserCreateRequest.Validate req = None /\
        auth.HashPassword (model.UserCreateRequest.Password req) entropy
        = Ok hash /\
        users db !! serial = None /\
        (forall i r, users db !! i = Some r ->
                     username r <> model.UserCreateRequest.Username req /\
                     email r <> model.UserCreateRequest.Email req) /\
        users (ActionCreateUser entropy now serial ctx db).2
        = <[serial := registered_row req hash now]> (users db) /\
        body = H [("message", JString "User created successfully");
                  ("user",
                   model.UserResponse.Marshal
                     (model.User.ToResponse
                        (scan serial (registered_row req hash now))))])).
Proof.
  unfold ActionCreateUser.
  destruct (ShouldBindJSON ctx) as [req|e] eqn:Hbind;
    [|eexists _, _; split; [reflexivity|]; left; split;
      [discriminate | reflexivity]].
  destruct (model.UserCreateRequest.Validate req) eqn:Hval;
    [eexists _, _; split; [reflexivity|]; left; split;
      [discriminate | reflexivity]|].
  pose proof (ExistsByUsername_users
                (model.UserCreateRequest.Username req) db) as Hu1.
  pose proof (ExistsByUsername_false
                (model.UserCreateRequest.Username req) db) as Hf1.
  destruct (ExistsByUsername (model.UserCreateRequest.Username req) db)
    as [[[|]|e] d1]; simpl in Hu1;
    try (eexists _, _; split; [reflexivity|]; left; split;
         [discriminate | assumption]).
  destruct (Hf1 d1 eq_refl) as [_ Hname]. clear Hf1.
  pose proof (ExistsByEmail_users
                (model.UserCreateRequest.Email req) d1) as Hu2.
  pose proof (ExistsByEmail_false
                (model.UserCreateRequest.Email req) d1) as Hf2.
  destruct (ExistsByEmail (model.UserCreateRequest.Email req) d1)
    as [[[|]|e] d2]; simpl in Hu2;
    try (eexists _, _; split; [reflexivity|]; left; split;
         [discriminate | simpl; congruence]).
  destruct (Hf2 d2 eq_refl) as [_ Hemail]. clear Hf2.
  destruct (auth.HashPassword (model.UserCreateRequest.Password req) entropy)
    as [hash|e] eqn:Hhash;
    [|eexists _, _; split; [reflexivity|]; left; split;
      [discriminate | simpl; congruence]].
  set (user := model.User.BeforeCreate now _).
  pose proof (Create_keeps_rows_aux user serial d2) as Hc.
  destruct (Create user serial d2) as [[[err|] user'] d3] eqn:Hcreate.
  - eexists _, _. split; [reflexivity|]. left. split; [discriminate|].
    simpl. destruct Hc as [Hc _]. simpl in Hc.
    rewrite Hc by discriminate. congruence.
  - eexists _, _. split; [reflexivity|]. right. split; [reflexivity|].
    apply Create_inv in Hcreate as (-> & Hfree & Hnew & _).
    exists req, hash. rewrite Hu2, Hu1 in Hfree, Hnew.
    repeat split; try assumption.
    + apply (Hname i r). assumption.
    + apply (Hemail i r). rewrite Hu1. assumption.
Qed.

(** X13. The registration handler writes one answer, and the answer is
    201 exactly when a row has been added.  The added row sits under
    the id drawn by the insert, which was free; it carries the username
    and email of a request that passed [Validate], the parsed gender,
    the hash returned by the hasher and the handler's clock in both
    timestamps; the answer shows that row without the hash.  With any
    other answer the table is as before. *)
Theorem ActionCreateUser_effect
    {Bd : Bindable model.UserCreateRequest.t} {U : Unicode} {B : Bcrypt}
    (entropy : string) (now serial : Z) (ctx : Context) (db : DB) :
  exists code body,
    Written (ActionCreateUser entropy now serial ctx db).1
    = Written ctx ++ [(code, body)] /\
    ((code <> StatusCreated /\
      users (ActionCreateUser entropy now serial ctx db).2 = users db) \/
     (code = StatusCreated /\
      exists req hash,
        ShouldBindJSON ctx = Ok req /\
        model.UserCreateRequest.Validate req = None /\
        auth.HashPassword (model.UserCreateRequest.Password req) entropy
        = Ok hash /\
        users db !! serial = None /\
        users (ActionCreateUser entropy now serial ctx db).2
        = <[serial := registered_row req hash now]> (users db) /\
        body = H [("message", JString "User created successfully");
                  ("user",
                   model.UserResponse.Marshal
                     (model.User.ToResponse
                        (scan serial (registered_row req hash now))))])).
Proof.
  destruct (ActionCreateUser_run entropy now serial ctx db)
    as (code & body & Hw & [Hfail|(Hcode & req & hash & Hrun)]).
  - exists code, body. auto.
  - exists code, body. split; [assumption|]. right. split; [assumption|].
    exists req, hash. tauto.
Qed.

Lemma insert_fresh_schema_ok (t : gmap Z Row) (k : Z) (new : Row) :
  schema_ok t ->
  t !! k = None ->
  (forall i r, t !! i = Some r ->
               username r <> username new /\ email r <> email new) ->
  model.IsValid (gender new) = true ->
  schema_ok (<[k := new]> t).
Proof.
  intros (Hun & Hue & Hg) Hfree Hfresh Hvalid.
  split; [|split].
  - intros i j ri rj Hi Hj Heq.
    destruct (decide (i = k)) as [->|Hik], (decide (j = k)) as [->|Hjk];
      [reflexivity| | |].
    + rewrite lookup_insert_eq in Hi. rewrite lookup_insert_ne in Hj by auto.
      injection Hi as <-. destruct (Hfresh j rj Hj) as [Hne _]. congruence.
    + rewrite lookup_insert_eq in Hj. rewrite lookup_insert_ne in Hi by auto.
      injection Hj as <-. destruct (Hfresh i ri Hi) as [Hne _]. congruence.
    + rewrite lookup_insert_ne in Hi, Hj by auto. eauto.
  - intros i j ri rj Hi Hj Heq.
    destruct (decide (i = k)) as [->|Hik], (decide (j = k)) as [->|Hjk];
      [reflexivity| | |].
    + rewrite lookup_insert_eq in Hi. rewrite lookup_insert_ne in Hj by auto.
      injection Hi as <-. destruct (Hfresh j rj Hj) as [_ Hne]. congruence.
    + rewrite lookup_insert_eq in Hj. rewrite lookup_insert_ne in Hi by auto.
      injection Hj as <-. destruct (Hfresh i ri Hi) as [_ Hne]. congruence.
    + rewrite lookup_insert_ne in Hi, Hj by auto. eauto.
  - intros i r Hi. destruct (decide (i = k)) as [->|Hik].
    + rewrite lookup_insert_eq in Hi. injection Hi as <-. assumption.
    + rewrite lookup_insert_ne in Hi by auto. eauto.
Qed.

(** X14. Registration keeps the constraints of the schema: from a table
    in which usernames are unique, emails are unique and every gender
    is one of the three values, the handler leads to such a table,
    whatever the request, the driver and the hasher do. *)
Theorem ActionCreateUser_keeps_schema
    {Bd : Bindable model.UserCreateRequest.t} {U : Unicode} {B : Bcrypt}
    (entropy : string) (now serial : Z) (ctx : Context) (db : DB) :
  schema_ok (users db) ->
  schema_ok (users (ActionCreateUser entropy now serial ctx db).2).
Proof.
  intros Hok.
  destruct (ActionCreateUser_run entropy now serial ctx db)
    as (code & body & _ & [[_ ->]|(_ & req & hash & Hrun)]); [assumption|].
  destruct Hrun as (_ & _ & _ & Hfree & Hfresh & -> & _).
  apply insert_fresh_schema_ok; try assumption.
  apply model_facts.IsValid_ParseGender.
Qed.

Lemma alice_db_schema_ok : schema_ok (users sample.alice_db).
Proof.
  unfold sample.alice_db. simpl. split; [|split].
  - intros i j ri rj [<- _]%lookup_singleton_Some [<- _]%lookup_singleton_Some _.
    reflexivity.
  - intros i j ri rj [<- _]%lookup_singleton_Some [<- _]%lookup_singleton_Some _.
    reflexivity.
  - intros i r [_ <-]%lookup_singleton_Some. reflexivity.
Qed.

Lemma ActionCreateUser_keeps_schema_witness :
  schema_ok
    (users (ActionCreateUser (Bd := sample.bind_create)
              (U := sample.unicode) (B := sample.bcrypt)
              "salt" 50 2 sample.register_ctx sample.alice_db).2).
Proof.
  apply (ActionCreateUser_keeps_schema (Bd := sample.bind_create)
           (U := sample.unicode) (B := sample.bcrypt)
           "salt" 50 2 sample.register_ctx sample.alice_db).
  exact alice_db_schema_ok.
Defined.

Lemma update_username_fresh (req : model.UserUpdateRequest.t)
    (user user' : model.User.t) (ctx : Context) (db db' : DB) :
  update_username req user ctx db = Continue user' db' ->
  model.User.Username user' = model.User.Username user \/
  forall i r, users db !! i = Some r ->
              username r <> model.User.Username user'.
Proof.
  unfold update_username.
  destruct (model.UserUpdateRequest.Username req) as [name|];
    [|intros [= <- _]; auto].
  destruct (String.eqb name (model.User.Username user)); simpl;
    [intros [= <- _]; auto|].
  pose proof (ExistsByUsername_false name db) as Hf.
  destruct (ExistsByUsername name db) as [[[|]|e] d]; try discriminate.
  intros [= <- _]. right. simpl. apply (Hf d eq_refl).
Qed.

Lemma update_email_fresh (req : model.UserUpdateRequest.t)
    (user user' : model.User.t) (ctx : Context) (db db' : DB) :
  update_email req user ctx db = Continue user' db' ->
  model.User.Email user' = model.User.Email user \/
  forall i r, users db !! i = Some r ->
              email r <> model.User.Email user'.
Proof.
  unfold update_email.
  destruct (model.UserUpdateRequest.Email req) as [addr|];
    [|intros [= <- _]; auto].
  destruct (String.eqb addr (model.User.Email user)); simpl;
    [intros [= <- _]; auto|].
  pose proof (ExistsByEmail_false addr db) as Hf.
  destruct (ExistsByEmail addr db) as [[[|]|e] d]; try discriminate.
  intros [= <- _]. right. simpl. apply (Hf d eq_refl).
Qed.

Lemma replace_row_schema_ok (t : gmap Z Row) (k : Z) (r r' : Row) :
  schema_ok t ->
  t !! k = Some r ->
  (username r' = username r \/
   forall i ri, t !! i = Some ri -> username ri <> username r') ->
  (email r' = email r \/
   forall i ri, t !! i = Some ri -> email ri <> email r') ->
  model.IsValid (gender r') = true ->
  schema_ok (<[k := r']> t).
Proof.
  intros (Hun & Hue & Hg) Hk Hname Hemail Hvalid.
  split; [|split].
  - intros i j ri rj Hi Hj Heq.
    destruct (decide (i = k)) as [->|Hik], (decide (j = k)) as [->|Hjk];
      [reflexivity| | |].
    + rewrite lookup_insert_eq in Hi. rewrite lookup_insert_ne in Hj by auto.
      injection Hi as <-. destruct Hname as [Hsame|Hfresh].
      * apply (Hun k j r rj); congruence.
      * destruct (Hfresh j rj Hj). congruence.
    + rewrite lookup_insert_eq in Hj. rewrite lookup_insert_ne in Hi by auto.
      injection Hj as <-. destruct Hname as [Hsame|Hfresh].
      * apply (Hun i k ri r); congruence.
      * destruct (Hfresh i ri Hi). congruence.
    + rewrite lookup_insert_ne in Hi, Hj by auto. eauto.
  - intros i j ri rj Hi Hj Heq.
    destruct (decide (i = k)) as [->|Hik], (decide (j = k)) as [->|Hjk];
      [reflexivity| | |].
    + rewrite lookup_insert_eq in Hi. rewrite lookup_insert_ne in Hj by auto.
      injection Hi as <-. destruct Hemail as [Hsame|Hfresh].
      * apply (Hue k j r rj); congruence.
      * destruct (Hfresh j rj Hj). congruence.
    + rewrite lookup_insert_eq in Hj. rewrite lookup_insert_ne in Hi by auto.
      injection Hj as <-. destruct Hemail as [Hsame|Hfresh].
      * apply (Hue i k ri r); congruence.
      * destruct (Hfresh i ri Hi). congruence.
    + rewrite lookup_insert_ne in Hi, Hj by auto. eauto.
  - intros i ri Hi. destruct (decide (i = k)) as [->|Hik].
    + rewrite lookup_insert_eq in Hi. injection Hi as <-. assumption.
    + rewrite lookup_insert_ne in Hi by auto. eauto.
Qed.

(** X15. A profile update keeps the constraints of the schema: from a
    table with unique usernames, unique emails and valid genders it
    leads to such a table, whatever the request, the driver and the
    hasher do. *)
Theorem ActionUpdateProfile_keeps_schema
    {Bd : Bindable model.UserUpdateRequest.t} {U : Unicode} {B : Bcrypt}
    (entropy : string) (now1 now2 : Z) (ctx : Context) (db : DB) :
  schema_ok (users db) ->
  schema_ok (users (ActionUpdateProfile entropy now1 now2 ctx db).2).
Proof.
  intros Hok. unfold ActionUpdateProfile.
  destruct (auth.GetUserID ctx) as [uid [|]]; simpl; [|assumption].
  destruct (ShouldBindJSON ctx) as [req|e]; [|assumption].
  destruct (model.UserUpdateRequest.Validate req); [assumption|].
  destruct (GetByID_spec uid db) as [Hu0 Hget].
  destruct (GetByID uid db) as [[user|e] db0]; simpl in *;
    [|rewrite Hu0; assumption].
  destruct (Hget user eq_refl) as (r & Hr & ->). clear Hget.
  pose proof (update_username_spec req (scan uid r) ctx db0) as Hb1.
  destruct (update_username req (scan uid r) ctx db0) as [c1 d1|u1 d1]
    eqn:Hf1;
    simpl in Hb1; [simpl; rewrite Hb1, Hu0; assumption|].
  apply update_username_fresh in Hf1.
  destruct Hb1 as (Hu1 & Hs1 & _).
  pose proof (update_email_spec req u1 ctx d1) as Hb2.
  destruct (update_email req u1 ctx d1) as [c2 d2|u2 d2] eqn:Hf2;
    simpl in Hb2; [simpl; rewrite Hb2, Hu1, Hu0; assumption|].
  apply update_email_fresh in Hf2.
  destruct Hb2 as (Hu2 & Hs2 & _).
  pose proof (update_password_spec req entropy (update_gender req u2) ctx d2)
    as Hb3.
  destruct (update_password req entropy (update_gender req u2) ctx d2)
    as [c3 d3|u3 d3]; simpl in Hb3;
    [simpl; rewrite Hb3, Hu2, Hu1, Hu0; assumption|].
  destruct Hb3 as (Hu3 & Hs3 & _).
  pose proof (Update_spec (model.User.BeforeUpdate now1 u3) now2 d3) as Hupd.
  destruct (Update (model.User.BeforeUpdate now1 u3) now2 d3)
    as [[err u4] d4].
  assert (Hd3 : users d3 = users db) by congruence.
  assert (Hout : forall (a b : Context),
            users (match err with
                   | Some _ => (a, d4)
                   | None => (b, d4)
                   end).2 = users d4) by (intros; destruct err; reflexivity).
  destruct (update_gender_spec req u2) as (Hsg & Hng).
  assert (HID : model.User.ID u3 = uid).
  { rewrite Hs3. simpl. rewrite Hsg. simpl.
    rewrite Hs2. simpl. rewrite Hs1. reflexivity. }
  assert (Hname : model.User.Username u3 = model.User.Username u1).
  { rewrite Hs3. simpl. rewrite Hsg. simpl. rewrite Hs2. reflexivity. }
  assert (Hemail : model.User.Email u3 = model.User.Email u2).
  { rewrite Hs3. simpl. rewrite Hsg. reflexivity. }
  assert (Hgender : model.User.Gender u3
                    = model.User.Gender (update_gender req u2)).
  { rewrite Hs3. reflexivity. }
  assert (He1 : model.User.Email u1 = email r).
  { rewrite Hs1. reflexivity. }
  assert (Hg2 : model.User.Gender u2 = gender r).
  { rewrite Hs2. simpl. rewrite Hs1. reflexivity. }
  match goal with
  | |- schema_ok (users ?x) =>
      assert (Hfin : users x = users d4) by (destruct err; reflexivity)
  end.
  rewrite Hfin. clear Hfin Hout.
  destruct Hupd as [Hsame|(r0 & Hr0 & Hnew)];
    [rewrite Hsame, Hd3; assumption|].
  simpl in Hr0, Hnew. rewrite Hd3 in Hr0, Hnew. rewrite HID in Hr0, Hnew.
  rewrite Hnew. apply (replace_row_schema_ok _ _ r); try assumption; simpl.
  - rewrite Hname. destruct Hf1 as [->|Hfresh]; [left; reflexivity|].
    right. intros i ri Hi. apply (Hfresh i ri). congruence.
  - rewrite Hemail. destruct Hf2 as [->|Hfresh]; [left; exact He1|].
    right. intros i ri Hi. apply (Hfresh i ri). congruence.
  - rewrite Hgender.
    destruct (model.UserUpdateRequest.Gender req);
      rewrite Hng; [apply model_facts.IsValid_ParseGender|].
    rewrite Hg2. destruct Hok as (_ & _ & Hg). exact (Hg uid r Hr).
Qed.

Lemma ActionUpdateProfile_keeps_schema_witness :
  schema_ok
    (users (ActionUpdateProfile (Bd := sample.bind_gender_update)
              (U := sample.unicode) (B := sample.bcrypt) "salt" 30 31
              sample.update_ctx sample.alice_db).2).
Proof.
  apply (ActionUpdateProfile_keeps_schema (Bd := sample.bind_gender_update)
           (U := sample.unicode) (B := sample.bcrypt) "salt" 30 31
           sample.update_ctx sample.alice_db).
  exact alice_db_schema_ok.
Defined.

End register_facts.

(** ** Sessions and the read-only handlers *)

Module session_facts.

Import gin auth repository action spec action_facts repository_facts
  auth_facts.

Lemma GetByEmail_users (addr : string) (db : DB) :
  users (GetByEmail addr db).2 = users db.
Proof.
  unfold GetByEmail. pose proof (driver_users db) as Hu.
  destruct (driver db) as [[e|] db0]; simpl in *; [assumption|].
  destruct (QueryRow _ db0) as [[i r]|]; assumption.
Qed.

Lemma List_users (db : DB) : users (List db).2 = users db.
Proof.
  unfold List. pose proof (driver_users db) as Hu.
  destruct (driver db) as [[e|] db0]; simpl in *; [assumption|].
  pose proof (driver_users db0) as Hu0.
  destruct (driver db0) as [[e|] db1]; simpl in *; congruence.
Qed.

(** X16. The handlers that only read never change the users table:
    login, profile, user list, and the two verification handlers leave
    it as it was on every path, failures included. *)
Theorem read_handlers_keep_table
    {Bl : Bindable UserLoginRequest.t}
    {Bs : Bindable EmailVerificationRequest.t}
    {Bc : Bindable EmailVerificationConfirmRequest.t}
    {B : Bcrypt} {J : JWT} (now : Z) (ctx : Context) (db : DB) :
  users (ActionLogin now ctx db).2 = users db /\
  users (ActionGetProfile ctx db).2 = users db /\
  users (ActionListUsers ctx db).2 = users db /\
  users (ActionSendVerificationCode ctx db).2 = users db /\
  users (ActionConfirmVerificationCode ctx db).2 = users db.
Proof.
  repeat split.
  - unfold ActionLogin.
    destruct (ShouldBindJSON ctx) as [req|e]; [|reflexivity].
    pose proof (GetByEmail_users (UserLoginRequest.Email req) db) as Hu.
    destruct (GetByEmail (UserLoginRequest.Email req) db)
      as [[user|e] d]; [|assumption].
    destruct (CheckPassword _ _); [assumption|].
    simpl. destruct (GenerateToken _ _ _ _ _); assumption.
  - unfold ActionGetProfile.
    destruct (GetUserID ctx) as [uid [|]]; simpl; [|reflexivity].
    destruct (GetByID_spec uid db) as [Hu _].
    destruct (GetByID uid db) as [[user|e] d]; assumption.
  - unfold ActionListUsers. pose proof (List_users db) as Hu.
    destruct (List db) as [[l|e] d]; assumption.
  - unfold ActionSendVerificationCode.
    destruct (ShouldBindJSON ctx) as [req|e]; [|reflexivity].
    pose proof (GetByEmail_users (EmailVerificationRequest.Email req) db)
      as Hu.
    destruct (GetByEmail _ db) as [[user|e] d]; assumption.
  - unfold ActionConfirmVerificationCode.
    destruct (ShouldBindJSON ctx) as [req|e]; [|reflexivity].
    pose proof (GetByEmail_users
                  (EmailVerificationConfirmRequest.Email req) db) as Hu.
    destruct (GetByEmail _ db) as [[user|e] d]; [|assumption].
    destruct (negb _); assumption.
Qed.

Lemma AuthMiddleware_accepts {J : JWT} (jwtManager : JWTManager) (now : Z)
    (next : Context -> Context) (c : Context) (token : string)
    (claims : Claims) :
  GetHeader "Authorization" c = "Bearer " +:+ token ->
  ValidateToken jwtManager now token = Ok claims ->
  AuthMiddleware jwtManager now next c = next (attach claims c).
Proof.
  intros Hh Hv. unfold AuthMiddleware. rewrite Hh.
  change (String.eqb ("Bearer " +:+ token) "") with false. cbv iota.
  rewrite SplitN2_Bearer. simpl. rewrite Hv. reflexivity.
Qed.

(** X17. Behind the gate, the profile handler serves the subject of the
    token: for a header [Bearer <token>] whose token verifies, a
    working driver and a stored row under the subject's id, the chain
    answers 200 with that row, without its hash. *)
Theorem gate_then_profile {J : JWT} (jwtManager : JWTManager) (now : Z)
    (c : Context) (db : DB) (token : string) (claims : Claims) (r : Row) :
  GetHeader "Authorization" c = "Bearer " +:+ token ->
  ValidateToken jwtManager now token = Ok claims ->
  ready db ->
  users db !! UserID claims = Some r ->
  AuthMiddleware jwtManager now (fun c' => (ActionGetProfile c' db).1) c
  = JSON StatusOK
      (H [("message", JString "Profile retrieved successfully");
          ("data",
           model.UserResponse.Marshal
             (model.User.ToResponse (scan (UserID claims) r)))])
      (attach claims c).
Proof.
  intros Hh Hv Hready Hr.
  rewrite (AuthMiddleware_accepts _ _ _ _ token claims) by assumption.
  unfold ActionGetProfile.
  destruct (attach_facts claims c) as (-> & _). simpl.
  pose proof (GetByID_ready (UserID claims) db Hready) as Hget.
  rewrite Hr in Hget.
  destruct (GetByID (UserID claims) db) as [res d]. simpl in Hget.
  subst res. reflexivity.
Qed.

Lemma gate_then_profile_witness :
  AuthMiddleware (J := sample.jwt) sample.manager 0
    (fun c' => (ActionGetProfile c' sample.alice_db).1)
    (sample.bearer_ctx "Bearer token-alice")
  = JSON StatusOK
      (H [("message", JString "Profile retrieved successfully");
          ("data",
           model.UserResponse.Marshal
             (model.User.ToResponse
                (scan (UserID sample.alice_claims) sample.alice_row)))])
      (attach sample.alice_claims (sample.bearer_ctx "Bearer token-alice")).
Proof.
  apply (gate_then_profile (J := sample.jwt) sample.manager 0
           (sample.bearer_ctx "Bearer token-alice") sample.alice_db
           "token-alice" sample.alice_claims sample.alice_row).
  - reflexivity.
  - reflexivity.
  - reflexivity.
  - reflexivity.
Defined.

(** X18. Behind the gate, a refresh mints the new token for exactly the
    identity the old token verified to: the issuer is called with the
    id, username and email of the verified claims and the configured
    secret and 24 hours, and its token is returned with a lifetime of
    86400 seconds. *)
Theorem gate_then_refresh {J : JWT} (jwtManager : JWTManager)
    (now now' : Z) (c : Context) (token token' : string)
    (claims : Claims) :
  GetHeader "Authorization" c = "Bearer " +:+ token ->
  ValidateToken jwtManager now token = Ok claims ->
  GenerateToken
    (NewJWTManager "your-super-secret-jwt-key-change-in-production"
       86400000000000)
    now' (UserID claims) (Username claims) (Email claims) = Ok token' ->
  AuthMiddleware jwtManager now (ActionRefreshToken now') c
  = JSON StatusOK
      (H [("message", JString "Token refreshed successfully");
          ("data",
           H [("token", JString token');
              ("expires_in", JInt 86400);
              ("token_type", JString "Bearer")])])
      (attach claims c).
Proof.
  intros Hh Hv Hgen.
  rewrite (AuthMiddleware_accepts _ _ _ _ token claims) by assumption.
  unfold ActionRefreshToken.
  destruct (attach_facts claims c) as (-> & -> & -> & _). simpl.
  match goal with
  | |- context [GenerateToken ?m _ _ _ _] =>
      change m
        with (NewJWTManager "your-super-secret-jwt-key-change-in-production"
                86400000000000)
  end.
  rewrite Hgen. reflexivity.
Qed.

Lemma gate_then_refresh_witness :
  AuthMiddleware (J := sample.jwt) sample.manager 0
    (ActionRefreshToken (J := sample.jwt) 5)
    (sample.bearer_ctx "Bearer token-alice")
  = JSON StatusOK
      (H [("message", JString "Token refreshed successfully");
          ("data",
           H [("token", JString "token-alice");
              ("expires_in", JInt 86400);
              ("token_type", JString "Bearer")])])
      (attach sample.alice_claims (sample.bearer_ctx "Bearer token-alice")).
Proof.
  apply (gate_then_refresh (J := sample.jwt) sample.manager 0 5
           (sample.bearer_ctx "Bearer token-alice") "token-alice"
           "token-alice" sample.alice_claims).
  - reflexivity.
  - reflexivity.
  - reflexivity.
Defined.

(** X19. Without a complete identity in the context the refresh handler
    mints nothing: when the id, the username or the email is missing
    or of another type, the answer is 401 "User not authenticated". *)
Theorem refresh_requires_identity {J : JWT} (now : Z) (c : Context) :
  (GetUserID c).2 = false \/ (GetUsername c).2 = false \/
  (GetEmail c).2 = false ->
  ActionRefreshToken now c
  = JSON StatusUnauthorized (H [("error", JString "User not authenticated")])
      c.
Proof.
  unfold ActionRefreshToken.
  destruct (GetUserID c) as [uid [|]]; simpl; [|reflexivity].
  destruct (GetUsername c) as [name [|]]; simpl; [|reflexivity].
  destruct (GetEmail c) as [addr [|]]; simpl; [|reflexivity].
  intros [?|[?|?]]; discriminate.
Qed.

Lemma refresh_requires_identity_witness :
  ActionRefreshToken (J := sample.jwt) 5 sample.update_ctx
  = JSON StatusUnauthorized (H [("error", JString "User not authenticated")])
      sample.update_ctx.
Proof.
  apply (refresh_requires_identity (J := sample.jwt) 5 sample.update_ctx).
  right. left. reflexivity.
Defined.

Lemma QueryRow_exists (p : Row -> bool) (db : DB) (i : Z) (r : Row) :
  users db !! i = Some r -> p r = true -> exists ir, QueryRow p db = Some ir.
Proof.
  intros Hr Hp. unfold QueryRow.
  destruct (List.find _ _) as [ir|] eqn:Hf; [eauto|].
  pose proof (find_none _ _ Hf (i, r)) as Hn. simpl in Hn.
  rewrite Hn in Hp; [discriminate|].
  apply list_elem_of_In, elem_of_map_to_list. exact Hr.
Qed.

(** With a working driver, a lookup by an address that a row carries
    succeeds with a stored row of that address. *)
Lemma GetByEmail_present (addr : string) (db : DB) (i : Z) (r : Row) :
  ready db -> users db !! i = Some r -> email r = addr ->
  exists j rj, users db !! j = Some rj /\ email rj = addr /\
               (GetByEmail addr db).1 = Ok (scan j rj).
Proof.
  intros (db0 & Hd & Hu)%ready_driver Hr He. unfold GetByEmail.
  rewrite Hd. rewrite <- Hu in Hr.
  destruct (QueryRow_exists (fun r => String.eqb (email r) addr) db0 i r Hr)
    as [[j rj] Hq]; [apply String.eqb_eq; assumption|].
  rewrite Hq. simpl. apply QueryRow_Some in Hq as [Hj Hp].
  apply String.eqb_eq in Hp. rewrite Hu in Hj. eauto.
Qed.

(** X20. A login with the password of the stored user succeeds with the
    token the issuer mints for that user's id, username and email; the
    answer shows the user without the hash and announces 86400 seconds,
    the 24 hours given to the issuer. *)
Theorem login_succeeds
    {Bl : Bindable UserLoginRequest.t} {B : Bcrypt} {J : JWT}
    (now : Z) (ctx : Context) (db : DB) (req : UserLoginRequest.t)
    (i : Z) (r : Row) (token : string) :
  ShouldBindJSON ctx = Ok req ->
  ready db ->
  unique_emails (users db) ->
  users db !! i = Some r ->
  email r = UserLoginRequest.Email req ->
  CompareHashAndPassword (password_hash r) (UserLoginRequest.Password req)
  = None ->
  GenerateToken
    (NewJWTManager "your-super-secret-jwt-key-change-in-production"
       86400000000000)
    now i (username r) (email r) = Ok token ->
  (ActionLogin now ctx db).1
  = JSON StatusOK
      (H [("message", JString "Login successful");
          ("data",
           UserLoginResponse.Marshal
             (UserLoginResponse.Build token
                (model.User.ToResponse (scan i r)) 86400 "Bearer"))])
      ctx.
Proof.
  intros Hbind Hready Huniq Hr He Hpw Hgen.
  destruct (GetByEmail_present _ db i r Hready Hr He)
    as (j & rj & Hj & Hej & Hget).
  assert (j = i) as -> by (apply (Huniq j i rj r); congruence).
  assert (rj = r) as -> by congruence.
  unfold ActionLogin. rewrite Hbind.
  destruct (GetByEmail (UserLoginRequest.Email req) db) as [res d].
  simpl in Hget. subst res. unfold CheckPassword. simpl. rewrite Hpw.
  match goal with
  | |- context [GenerateToken ?m _ _ _ _] =>
      change m
        with (NewJWTManager "your-super-secret-jwt-key-change-in-production"
                86400000000000)
  end.
  rewrite Hgen. reflexivity.
Qed.

Lemma login_succeeds_witness :
  (ActionLogin (Bd := sample.bind_login) (B := sample.bcrypt)
     (J := sample.jwt) 1000 sample.right_login_ctx sample.alice_db).1
  = JSON StatusOK
      (H [("message", JString "Login successful");
          ("data",
           UserLoginResponse.Marshal
             (UserLoginResponse.Build "token-alice"
                (model.User.ToResponse (scan 1 sample.alice_row))
                86400 "Bearer"))])
      sample.right_login_ctx.
Proof.
  apply (login_succeeds (Bl := sample.bind_login) (B := sample.bcrypt)
           (J := sample.jwt) 1000 sample.right_login_ctx sample.alice_db
           (UserLoginRequest.Build "alice@example.com" "Right1Password")
           1 sample.alice_row "token-alice").
  - reflexivity.
  - reflexivity.
  - intros i j ri rj Hi Hj _. simpl in Hi, Hj.
    apply lookup_singleton_Some in Hi as [<- _].
    apply lookup_singleton_Some in Hj as [<- _]. reflexivity.
  - reflexivity.
  - reflexivity.
  - reflexivity.
  - reflexivity.
Defined.

(** X21. The verification handler tells a registered address from an
    unregistered one: for one and the same request it answers 404
    "User with this email not found" on a table without the address and
    200 with the code on a table that holds it, so the two answers
    differ. *)
Theorem verification_reveals_registration
    {Bs : Bindable EmailVerificationRequest.t}
    (ctx : Context) (req : EmailVerificationRequest.t) (db1 db2 : DB)
    (i : Z) (r : Row) :
  ShouldBindJSON ctx = Ok req ->
  (forall j rj, users db1 !! j = Some rj ->
                email rj <> EmailVerificationRequest.Email req) ->
  ready db2 ->
  users db2 !! i = Some r ->
  email r = EmailVerificationRequest.Email req ->
  (ActionSendVerificationCode ctx db1).1
  = JSON StatusNotFound
      (H [("error", JString "User with this email not found")]) ctx /\
  (ActionSendVerificationCode ctx db2).1
  = JSON StatusOK
      (H [("message", JString "Verification code sent successfully");
          ("data",
           H [("email", JString (EmailVerificationRequest.Email req));
              ("code", JString "123456");
              ("expires_in_minutes", JInt 10)])]) ctx /\
  (ActionSendVerificationCode ctx db1).1
  <> (ActionSendVerificationCode ctx db2).1.
Proof.
  intros Hbind Hnone Hready Hr He.
  assert (Hrun1 : (ActionSendVerificationCode ctx db1).1
                  = JSON StatusNotFound
                      (H [("error",
                           JString "User with this email not found")]) ctx).
  { unfold ActionSendVerificationCode. rewrite Hbind.
    destruct (GetByEmail_absent _ _ Hnone) as [err Herr].
    destruct (GetByEmail (EmailVerificationRequest.Email req) db1)
      as [res d]. simpl in Herr. subst res. reflexivity. }
  assert (Hrun2 : (ActionSendVerificationCode ctx db2).1
                  = JSON StatusOK
                      (H [("message",
                           JString "Verification code sent successfully");
                          ("data",
                           H [("email",
                               JString (EmailVerificationRequest.Email req));
                              ("code", JString "123456");
                              ("expires_in_minutes", JInt 10)])]) ctx).
  { unfold ActionSendVerificationCode. rewrite Hbind.
    destruct (GetByEmail_present _ db2 i r Hready Hr He)
      as (j & rj & _ & _ & Hget).
    destruct (GetByEmail (EmailVerificationRequest.Email req) db2)
      as [res d]. simpl in Hget. subst res. reflexivity. }
  rewrite Hrun1, Hrun2. repeat split.
  unfold JSON. intros [= Habs]. apply app_inj_tail in Habs as [_ Habs].
  discriminate.
Qed.

Lemma verification_reveals_registration_witness :
  (ActionSendVerificationCode (Bd := sample.bind_send) sample.confirm_ctx
     sample.empty_db).1
  <> (ActionSendVerificationCode (Bd := sample.bind_send) sample.confirm_ctx
        sample.alice_db).1.
Proof.
  apply (verification_reveals_registration (Bs := sample.bind_send)
           sample.confirm_ctx
           (EmailVerificationRequest.Build "alice@example.com")
           sample.empty_db sample.alice_db 1 sample.alice_row).
  - reflexivity.
  - intros j rj Hj. simpl in Hj. rewrite lookup_empty in Hj. discriminate.
  - reflexivity.
  - reflexivity.
  - reflexivity.
Defined.

(** X22. With a working driver, the confirmation handler answers 200
    "Email verified successfully" exactly when the code is the fixed
    "123456" and the address belongs to a stored user. *)
Theorem confirmation_accepts_fixed_code
    {Bc : Bindable EmailVerificationConfirmRequest.t}
    (ctx : Context) (req : EmailVerificationConfirmRequest.t) (db : DB) :
  ShouldBindJSON ctx = Ok req ->
  ready db ->
  ((ActionConfirmVerificationCode ctx db).1
   = JSON StatusOK
       (H [("message", JString "Email verified successfully");
           ("data",
            H [("email",
                JString (EmailVerificationConfirmRequest.Email req));
               ("verified", JBool true)])]) ctx
   <->
   EmailVerificationConfirmRequest.Code req = "123456" /\
   exists i r, users db !! i = Some r /\
               email r = EmailVerificationConfirmRequest.Email req).
Proof.
  intros Hbind Hready. unfold ActionConfirmVerificationCode. rewrite Hbind.
  destruct (GetByEmail (EmailVerificationConfirmRequest.Email req) db)
    as [[user|e] d] eqn:Hget.
  - assert (Hrow : exists i r, users db !! i = Some r /\
                     email r = EmailVerificationConfirmRequest.Email req).
    { destruct (Get_returns_stored_aux
                  (EmailVerificationConfirmRequest.Email req) db user)
        as [He Hs]; [rewrite Hget; reflexivity|].
      exists (model.User.ID user), (row_of user). auto. }
    destruct (String.eqb_spec (EmailVerificationConfirmRequest.Code req)
                "123456") as [Hc|Hc]; simpl.
    + split; [auto | reflexivity].
    + split; [|intros [? _]; contradiction].
      unfold JSON. intros [= Habs]. apply app_inj_tail in Habs as [_ Habs].
      discriminate.
  - split.
    + unfold JSON. intros [= Habs]. apply app_inj_tail in Habs as [_ Habs].
      discriminate.
    + intros [_ (i & r & Hr & He)].
      destruct (GetByEmail_present _ db i r Hready Hr He)
        as (j & rj & _ & _ & Hok).
      rewrite Hget in Hok. discriminate.
Qed.

Lemma confirmation_accepts_fixed_code_witness :
  (ActionConfirmVerificationCode (Bd := sample.bind_confirm)
     sample.confirm_ctx sample.alice_db).1
  = JSON StatusOK
      (H [("message", JString "Email verified successfully");
          ("data",
           H [("email", JString "alice@example.com");
              ("verified", JBool true)])]) sample.confirm_ctx
  <->
  "123456" = "123456" /\
  exists i r, users sample.alice_db !! i = Some r /\
              email r = "alice@example.com".
Proof.
  apply (confirmation_accepts_fixed_code (Bc := sample.bind_confirm)
           sample.confirm_ctx
           (EmailVerificationConfirmRequest.Build "alice@example.com"
              "123456") sample.alice_db).
  - reflexivity.
  - reflexivity.
Defined.

End session_facts.

(** ** Random strings and the test user *)

Module testuser_facts.

Import regexp regexp_facts model gin repository action spec model_facts
  action_facts repository_facts.

Lemma nth_Forall {A} (P : A -> Prop) (l : list A) (d : A) (n : nat) :
  Forall P l -> P d -> P (nth n l d).
Proof.
  intros Hl Hd. revert n. induction Hl as [|x l Hx _ IH]; intros [|n]; simpl;
    auto.
Qed.

Lemma enc_url (v : Z) : in_class url_class (base64.enc v) = true.
Proof.
  unfold base64.enc.
  apply (nth_Forall (fun c => in_class url_class c = true));
    [|reflexivity].
  unfold base64.encodeURL. simpl. repeat constructor.
Qed.

Lemma list_ind3 {A} (P : list A -> Prop) :
  P [] -> (forall a, P [a]) -> (forall a b, P [a; b]) ->
  (forall a b c rest, P rest -> P (a :: b :: c :: rest)) ->
  forall l, P l.
Proof.
  intros H0 H1 H2 H3 l.
  assert (Hall : P l /\ (forall a, P (a :: l)) /\ (forall a b, P (a :: b :: l))).
  { induction l as [|x l (IH0 & IH1 & IH2)]; [auto|].
    split; [apply IH1|]. split; [intros a; apply IH2|].
    intros a b. apply H3. exact IH0. }
  apply Hall.
Qed.

(** The first [k] characters of the encoding of at least [k] bytes
    exist and are characters of the alphabet: no padding among them. *)
Lemma EncodeToString_prefix (l : list ascii) :
  forall k, (k <= length l)%nat ->
            (k <= length (base64.EncodeToString l))%nat /\
            all_in url_class (take k (base64.EncodeToString l)).
Proof.
  induction l as [|a|a b|a b c rest IH] using list_ind3; intros k Hk.
  - destruct k; [|simpl in Hk; lia]. split; [simpl; lia | constructor].
  - cbn [base64.EncodeToString length] in *.
    destruct k as [|[|k]]; [| |exfalso; lia]; cbn [take]; (split; [lia|]);
      repeat constructor; apply enc_url.
  - cbn [base64.EncodeToString length] in *.
    destruct k as [|[|[|k]]]; [| | |exfalso; lia]; cbn [take];
      (split; [lia|]);
      repeat constructor; apply enc_url.
  - cbn [base64.EncodeToString length] in *.
    destruct k as [|[|[|[|k]]]]; cbn [take];
      [split; [lia | repeat constructor; apply enc_url]..|].
    destruct (IH k) as [Hlen Hall]; [lia|].
    split; [lia|]. repeat (constructor; [apply enc_url|]). exact Hall.
Qed.

Lemma bytes_of_bytes (l : list ascii) : bytes (of_bytes l) = l.
Proof. apply list_ascii_of_string_of_list_ascii. Qed.

Lemma len_of_bytes (l : list ascii) : len (of_bytes l) = Z.of_nat (length l).
Proof. rewrite len_bytes, bytes_of_bytes. reflexivity. Qed.

Lemma random_part (random : nat -> ascii) (n : Z) :
  0 <= n ->
  let encoded :=
    base64.EncodeToString (map random (seq 0 (Z.to_nat n))) in
  (Z.of_nat (length encoded) <? n) = false /\
  len (of_bytes (take (Z.to_nat n) encoded)) = n /\
  all_in url_class (bytes (of_bytes (take (Z.to_nat n) encoded))).
Proof.
  intros Hn encoded.
  destruct (EncodeToString_prefix (map random (seq 0 (Z.to_nat n)))
              (Z.to_nat n)) as [Hlen Hall].
  { rewrite length_map, length_seq. lia. }
  fold encoded in Hlen, Hall.
  split; [apply Z.ltb_ge; lia|].
  rewrite len_of_bytes, bytes_of_bytes, length_take.
  split; [lia | exact Hall].
Qed.


Lemma url_byte_local (c : ascii) :
  in_class url_class c = true -> in_class email_local_class c = true.
Proof.
  destruct c as [[] [] [] [] [] [] [] []]; vm_compute; intuition congruence.
Qed.

Lemma of_bytes_app' (l1 l2 : list ascii) :
  bytes (of_bytes l1 +:+ of_bytes l2) = l1 ++ l2.
Proof.
  rewrite <- auth_facts.of_bytes_app. apply bytes_of_bytes.
Qed.

Lemma bytes_app (s1 s2 : string) : bytes (s1 +:+ s2) = bytes s1 ++ bytes s2.
Proof.
  rewrite <- (auth_facts.of_bytes_bytes s1), <- (auth_facts.of_bytes_bytes s2)
    at 1.
  apply of_bytes_app'.
Qed.

(** X24. The credentials of the test user do not depend on the random
    bytes as far as the username goes: it is always "testuser".  The
    email is "test", two characters of [[A-Za-z0-9_-]] and "@test.com";
    with the fixed password the three pass the create validator, which
    the handler does not run. *)
Theorem test_user_credentials {U : Unicode} (random1 random2 : nat -> ascii) :
  generateRandomString 8 "testuser" random1 = Some "testuser" /\
  exists part,
    generateRandomString 6 "test" random2 = Some ("test" +:+ part) /\
    len part = 2 /\ all_in url_class (bytes part) /\
    UserCreateRequest.Validate
      (UserCreateRequest.Build "testuser" (("test" +:+ part) +:+ "@test.com")
         "" "TestPassword123!") = None.
Proof.
  split; [reflexivity|].
  unfold generateRandomString.
  change (negb (String.eqb "test" "")) with true.
  change (6 - len "test") with 2. cbv iota. simpl andb.
  change (2 <=? 0) with false. change (2 <? 0) with false. cbv iota.
  destruct (random_part random2 2) as (-> & Hlen & Hall); [lia|].
  eexists. split; [reflexivity|]. split; [exact Hlen|]. split; [exact Hall|].
  set (part := of_bytes _) in *.
  unfold UserCreateRequest.Validate.
  cbn [UserCreateRequest.Username UserCreateRequest.Email
       UserCreateRequest.Gender UserCreateRequest.Password].
  change (validateUsername "testuser") with (@None string). cbv iota.
  rewrite validateEmail_ok, validateGender_nil.
  - vm_compute. reflexivity.
  - exists (bytes "test" ++ bytes part), (bytes "test"), (bytes "com").
    split; [rewrite !bytes_app, <- app_assoc; reflexivity|].
    split; [discriminate|].
    split.
    { apply Forall_app. split; [repeat constructor|].
      eapply Forall_impl; [exact Hall|]. apply url_byte_local. }
    split; [discriminate|].
    split; [exists [bytes "test"]; split;
            [reflexivity | repeat constructor]|].
    split; [simpl; lia | repeat constructor].
  - rewrite len_bytes, !bytes_app, !length_app.
    rewrite len_bytes in Hlen. simpl. lia.
Qed.



End testuser_facts.

(** ** How the handlers compose *)

Module flow_facts.

Import gin repository action spec action_facts repository_facts
  register_facts session_facts.








Lemma quiet_driver (db : DB) : faults db = [] -> driver db = (None, db).
Proof. unfold driver. intros ->. reflexivity. Qed.

Lemma Count_found (p : Row -> bool) (db : DB) (i : Z) (r : Row) :
  users db !! i = Some r -> p r = true -> (Count p db >? 0) = true.
Proof.
  intros Hr Hp. apply Count_pos. eapply QueryRow_exists; eassumption.
Qed.

Lemma Count_none (p : Row -> bool) (db : DB) :
  (forall i r, users db !! i = Some r -> p r = false) ->
  (Count p db >? 0) = false.
Proof.
  intros Hall. destruct (Count p db >? 0) eqn:Hc; [|reflexivity].
  apply Count_pos in Hc as [[i r] Hq].
  apply QueryRow_Some in Hq as [Hr Hp]. rewrite (Hall i r Hr) in Hp.
  discriminate.
Qed.

(** X28. Registration refuses a taken name or address.  For a valid
    request and a driver without faults, a stored row with the
    requested username gives 409 "Username already exists"; with a free
    username, a stored row with the requested email gives 409 "Email
    already exists".  The table stays as it was in both cases. *)
Theorem register_rejects_duplicates
    {Bc : Bindable model.UserCreateRequest.t} {U : Unicode} {B : Bcrypt}
    (entropy : string) (now serial : Z) (ctx : Context) (db : DB)
    (req : model.UserCreateRequest.t) (i : Z) (r : Row) :
  ShouldBindJSON ctx = Ok req ->
  model.UserCreateRequest.Validate req = None ->
  faults db = [] ->
  users db !! i = Some r ->
  (username r = model.UserCreateRequest.Username req ->
   ActionCreateUser entropy now serial ctx db
   = (JSON StatusConflict
        (H [("error", JString "Username already exists")]) ctx, db)) /\
  ((forall j rj, users db !! j = Some rj ->
                 username rj <> model.UserCreateRequest.Username req) ->
   email r = model.UserCreateRequest.Email req ->
   ActionCreateUser entropy now serial ctx db
   = (JSON StatusConflict
        (H [("error", JString "Email already exists")]) ctx, db)).
Proof.
  intros Hbind Hval Hq Hr. unfold ActionCreateUser.
  rewrite Hbind, Hval. unfold ExistsByUsername, ExistsByEmail.
  rewrite (quiet_driver db Hq). split.
  - intros Hname.
    rewrite (Count_found _ db i r Hr) by (apply String.eqb_eq; assumption).
    reflexivity.
  - intros Hfree Hemail.
    rewrite Count_none
      by (intros j rj Hj; apply String.eqb_neq; eauto).
    rewrite (quiet_driver db Hq).
    rewrite (Count_found _ db i r Hr) by (apply String.eqb_eq; assumption).
    reflexivity.
Qed.

Lemma register_rejects_duplicates_witness :
  (username sample.alice_row = "alice" ->
   ActionCreateUser (Bd := sample.bind_create) (U := sample.unicode)
     (B := sample.bcrypt) "salt" 50 2 sample.taken_ctx sample.alice_db
   = (JSON StatusConflict
        (H [("error", JString "Username already exists")]) sample.taken_ctx,
      sample.alice_db)) /\
  ((forall j rj, users sample.alice_db !! j = Some rj ->
                 username rj <> "alice") ->
   email sample.alice_row = "alice2@example.com" ->
   ActionCreateUser (Bd := sample.bind_create) (U := sample.unicode)
     (B := sample.bcrypt) "salt" 50 2 sample.taken_ctx sample.alice_db
   = (JSON StatusConflict
        (H [("error", JString "Email already exists")]) sample.taken_ctx,
      sample.alice_db)).
Proof.
  apply (register_rejects_duplicates (Bc := sample.bind_create)
           (U := sample.unicode) (B := sample.bcrypt) "salt" 50 2
           sample.taken_ctx sample.alice_db
           (model.UserCreateRequest.Build "alice" "alice2@example.com" ""
              "Secret9Pass") 1 sample.alice_row).
  - reflexivity.
  - reflexivity.
  - reflexivity.
  - reflexivity.
Defined.

End flow_facts.
